(** * Verification of the DomusJS project scaffolder ([bin/index.js])

    The script is a straight-line Node program: it prompts the operator for
    three answers, creates the project directory, probes the host for a
    package manager, writes the project files and runs the install command.

    The development embeds it as follows.
    - JavaScript strings are [string]s holding the UTF-8 bytes of the text.
    - Object literals are association lists in insertion order, and
      [JSON.stringify (_, null, 2)] is the function [JSON.stringify].
    - Node's [path.resolve] and [path.join] (POSIX flavour) are the functions
      of module [Path].
    - Everything the script does to the outside (console, prompts, file
      system, subprocesses) is an event appended to a trace; whether a system
      call succeeds is decided by the host, a function of the call and of the
      trace so far.  Thrown exceptions and [process.exit] are results of the
      monad [M]. *)

From Stdlib Require Import Ascii String List Bool Arith Lia.
From stdpp Require Import gmap strings list.
Import ListNotations.

Local Open Scope string_scope.
Local Open Scope list_scope.
#[local] Set Warnings "-register-all".

(** ** Strings *)

Module Str.

Definition LF : string := String "010"%char EmptyString.

(** The double quote, by its code. *)
Definition DQ : string := String "034"%char EmptyString.

Definition isEmpty (s : string) : bool :=
  match s with EmptyString => true | String _ _ => false end.

(** [s[0] === c] *)
Definition startsWith (c : ascii) (s : string) : bool :=
  match s with EmptyString => false | String a _ => Ascii.eqb a c end.

(** [s[s.length - 1] === c] *)
Fixpoint endsWith (c : ascii) (s : string) : bool :=
  match s with
  | EmptyString => false
  | String a EmptyString => Ascii.eqb a c
  | String _ r => endsWith c r
  end.

(** [parts.join(sep)] *)
Fixpoint join (sep : string) (parts : list string) : string :=
  match parts with
  | [] => EmptyString
  | [p] => p
  | p :: rest => p +:+ sep +:+ join sep rest
  end.

(** [s.split(sep)] for a one-character separator: never the empty list. *)
Fixpoint split (sep : ascii) (s : string) : list string :=
  match s with
  | EmptyString => [EmptyString]
  | String c r =>
      if Ascii.eqb c sep then EmptyString :: split sep r
      else match split sep r with
           | [] => [String c EmptyString]
           | h :: t => String c h :: t
           end
  end.

(** White space and line terminators of the ASCII range: TAB, LF, VT, FF,
    CR and the space. *)
Definition isWhiteSpace (c : ascii) : bool :=
  let n := nat_of_ascii c in
  Nat.eqb n 32 || (Nat.leb 9 n && Nat.leb n 13).

Fixpoint trimStart (s : string) : string :=
  match s with
  | EmptyString => EmptyString
  | String c r => if isWhiteSpace c then trimStart r else s
  end.

Fixpoint trimEnd (s : string) : string :=
  match s with
  | EmptyString => EmptyString
  | String c r =>
      match trimEnd r with
      | EmptyString => if isWhiteSpace c then EmptyString else String c EmptyString
      | r' => String c r'
      end
  end.

(** [s.trim()] *)
Definition trim (s : string) : string := trimEnd (trimStart s).

End Str.

(** ** Node's [path] module, POSIX flavour

    [normalizeString] walks the path one segment at a time: empty segments
    and [.] are dropped, [..] removes the segment before it, or is kept when
    there is none to remove and the path is relative. *)

Module Path.

Definition SEP : ascii := "/"%char.

Definition isAbsolute (path : string) : bool := Str.startsWith SEP path.

(** [res] is the stack of segments kept so far, last one first. *)
Definition normalizeSegment (allowAboveRoot : bool) (res : list string) (seg : string)
  : list string :=
  if Str.isEmpty seg || String.eqb seg "." then res
  else if String.eqb seg ".." then
    match res with
    | top :: below =>
        if String.eqb top ".." then (if allowAboveRoot then ".." :: res else res)
        else below
    | [] => if allowAboveRoot then [".."] else []
    end
  else seg :: res.

Definition normalizeString (path : string) (allowAboveRoot : bool) : string :=
  Str.join "/" (rev (fold_left (normalizeSegment allowAboveRoot) (Str.split SEP path) [])).

Definition normalize (path : string) : string :=
  if Str.isEmpty path then "."
  else
    let absolute := isAbsolute path in
    let trailingSeparator := Str.endsWith SEP path in
    let p := normalizeString path (negb absolute) in
    if Str.isEmpty p then
      (if absolute then "/" else if trailingSeparator then "./" else ".")
    else
      let p := if trailingSeparator then p +:+ "/" else p in
      if absolute then "/" +:+ p else p.

(** [path.join(...args)] *)
Definition join (args : list string) : string :=
  match List.filter (fun a => negb (Str.isEmpty a)) args with
  | [] => "."
  | parts => normalize (Str.join "/" parts)
  end.

(** One turn of the loop of [resolve]: arguments are taken from the right
    until the path built so far is absolute; empty ones are skipped. *)
Definition resolveArg (acc : string * bool) (path : string) : string * bool :=
  let '(resolvedPath, resolvedAbsolute) := acc in
  if resolvedAbsolute || Str.isEmpty path then acc
  else (path +:+ "/" +:+ resolvedPath, isAbsolute path).

(** [path.resolve(...args)], with [process_cwd] the value of [process.cwd()],
    consulted after the leftmost argument. *)
Definition resolve (process_cwd : string) (args : list string) : string :=
  let '(resolvedPath, resolvedAbsolute) :=
    fold_left resolveArg (rev args ++ [process_cwd]) (EmptyString, false) in
  let p := normalizeString resolvedPath (negb resolvedAbsolute) in
  if resolvedAbsolute then "/" +:+ p
  else if Str.isEmpty p then "." else p.

(** The directories [mkdir -p] has to find or make for an absolute path:
    the root, then one per segment. *)
Fixpoint prefixes (base : string) (segs : list string) : list string :=
  match segs with
  | [] => []
  | s :: rest =>
      let here := base +:+ "/" +:+ s in
      here :: prefixes here rest
  end.

Definition ancestorsAndSelf (path : string) : list string :=
  "/" :: prefixes EmptyString
           (List.filter (fun s => negb (Str.isEmpty s)) (Str.split SEP path)).

End Path.

(** ** JSON values and [JSON.stringify (value, null, 2)] *)

Module JSON.

Inductive value : Type :=
| Str (s : string)
| Bool (b : bool)
| Arr (items : list value)
| Obj (members : list (string * value)).

Definition hexDigit (n : nat) : ascii :=
  ascii_of_nat (if Nat.ltb n 10 then 48 + n else 87 + n).

(** One character of [QuoteJSONString]. *)
Definition quoteChar (c : ascii) : string :=
  let n := nat_of_ascii c in
  if Nat.eqb n 8 then "\b"
  else if Nat.eqb n 9 then "\t"
  else if Nat.eqb n 10 then "\n"
  else if Nat.eqb n 12 then "\f"
  else if Nat.eqb n 13 then "\r"
  else if Nat.eqb n 34 then "\" +:+ Str.DQ
  else if Nat.eqb n 92 then "\\"
  else if Nat.ltb n 32 then
    "\u00" +:+ String (hexDigit (n / 16)) (String (hexDigit (n mod 16)) EmptyString)
  else String c EmptyString.

Fixpoint quoteChars (s : string) : string :=
  match s with
  | EmptyString => EmptyString
  | String c r => quoteChar c +:+ quoteChars r
  end.

Definition quote (s : string) : string := Str.DQ +:+ quoteChars s +:+ Str.DQ.

Definition gap : string := "  ".

(** [SerializeJSONProperty] with [indent] the current indentation. *)
Fixpoint serialize (indent : string) (v : value) : string :=
  match v with
  | Str s => quote s
  | Bool b => if b then "true" else "false"
  | Arr [] => "[]"
  | Arr items =>
      let stepback := indent in
      let indent := indent +:+ gap in
      "[" +:+ Str.LF +:+ indent
        +:+ Str.join ("," +:+ Str.LF +:+ indent) (map (serialize indent) items)
        +:+ Str.LF +:+ stepback +:+ "]"
  | Obj [] => "{}"
  | Obj members =>
      let stepback := indent in
      let indent := indent +:+ gap in
      "{" +:+ Str.LF +:+ indent
        +:+ Str.join ("," +:+ Str.LF +:+ indent)
              (map (fun m => match m with
                             | (k, x) => quote k +:+ ": " +:+ serialize indent x
                             end) members)
        +:+ Str.LF +:+ stepback +:+ "}"
  end.

Definition stringify (v : value) : string := serialize EmptyString v.

(** Property access on an object literal. *)
Fixpoint get (key : string) (members : list (string * value)) : option value :=
  match members with
  | [] => None
  | (k, x) :: rest => if String.eqb k key then Some x else get key rest
  end.

Definition keys (members : list (string * value)) : list string := map fst members.

(** The members of an object; nothing for any other value. *)
Definition members (v : value) : list (string * value) :=
  match v with
  | Obj m => m
  | _ => []
  end.

(** [...(cond && block)] inside an object literal: the members of [block]
    when [cond] is [true], nothing when it is [false]. *)
Definition spreadIf (cond : bool) (block : list (string * value))
  : list (string * value) :=
  if cond then block else [].

End JSON.

(** ** The outside world

    A system call either succeeds or throws.  The host decides, knowing the
    call and everything that happened before it. *)

Inductive Stdio : Type := Ignore | Inherit.

Inductive Call : Type :=
| ExecSync (command : string) (cwd : option string) (stdio : Stdio)
| MkdirSync (path : string) (recursive : bool)
| WriteFileSync (path : string) (data : string).

(** What the script prints; colours and pictograms are left out. *)
Inductive Message : Type :=
| Banner
| Cancelled
| Created (projectName : string)
| Installing (packageManager : string)
| NextSteps
| ChangeDir (projectName : string)
| RunDev (packageManager : string).

Inductive Event : Type :=
| Sys (c : Call) (ok : bool)
| ConsoleLog (m : Message)
| Ask (question : string)
| Reject (question : string) (error : string).

(** What the operator does at a prompt: submit what was typed (possibly
    nothing), or cancel. *)
Inductive Action : Type :=
| Submit (typed : string)
| Cancel.

(** What a [validate] callback returns: [true], or an error message. *)
Inductive Validation : Type :=
| Valid
| Invalid (error : string).

(** ** The monad of the script

    [Throw] is a thrown exception, [Exit] a call of [process.exit], and
    [Blocked] a prompt still waiting when the operator's actions have run
    out. *)

Inductive Res (A : Type) : Type :=
| Ret (a : A)
| Throw
| Exit (code : nat)
| Blocked.

Arguments Ret {A} a.
Arguments Throw {A}.
Arguments Exit {A} code.
Arguments Blocked {A}.

Definition Trace : Type := list Event.

Definition M (A : Type) : Type := Trace -> Res A * Trace.

Definition ret {A} (a : A) : M A := fun t => (Ret a, t).

Definition bind {A B} (m : M A) (k : A -> M B) : M B :=
  fun t =>
    match m t with
    | (Ret a, t') => k a t'
    | (Throw, t') => (Throw, t')
    | (Exit code, t') => (Exit code, t')
    | (Blocked, t') => (Blocked, t')
    end.

Declare Scope js_scope.
Delimit Scope js_scope with js.
Notation "'let*' x ':=' m 'in' k" := (bind m (fun x => k))
  (at level 10, x name, m at level 100, k at level 200) : js_scope.
Notation "m ';;;' k" := (bind m (fun _ => k))
  (at level 100, k at level 200, right associativity) : js_scope.
Local Open Scope js_scope.

(** [try { body } catch { handler }] *)
Definition tryCatch {A} (body handler : M A) : M A :=
  fun t =>
    match body t with
    | (Throw, t') => handler t'
    | r => r
    end.

Definition tell (e : Event) : M unit := fun t => (Ret tt, t ++ [e]).

Definition console_log (m : Message) : M unit := tell (ConsoleLog m).

Definition process_exit {A} (code : nat) : M A := fun t => (Exit code, t).

Definition blocked {A} : M A := fun t => (Blocked, t).

(** The exit code of the process when the module's top level ends with [r]:
    an uncaught exception ends Node with code 1.  At [Blocked] the script has
    not ended, and has no exit code of its own; what becomes of the process
    when the input stream ends there is [exitStatus], below. *)
Definition exitCode {A} (r : Res A) : option nat :=
  match r with
  | Ret _ => Some 0
  | Throw => Some 1
  | Exit code => Some code
  | Blocked => None
  end.

(** ** The generated files *)

Import JSON.

Definition scripts (useEslint : bool) : list (string * value) :=
  [ ("build", Str "tsc");
    ("dev", Str "ts-node-dev --respawn --transpile-only index.ts") ]
  ++ spreadIf useEslint [ ("lint", Str "eslint . --ext .ts") ]
  ++ [ ("test", Str ("echo " +:+ Str.DQ +:+ "Error: no test specified" +:+ Str.DQ
                       +:+ " && exit 1")) ].

Definition devDependencies (typescriptVersion : string) (useEslint : bool)
  : list (string * value) :=
  [ ("@types/express", Str "^5.0.3");
    ("@types/node", Str "^22.15.3");
    ("ts-node", Str "^10.9.2");
    ("ts-node-dev", Str "^2.0.0");
    ("typescript", Str typescriptVersion) ]
  ++ spreadIf useEslint
       [ ("eslint", Str "^9.29.0");
         ("@typescript-eslint/parser", Str "^8.34.1");
         ("@typescript-eslint/eslint-plugin", Str "^8.34.1") ].

Definition dependencies : list (string * value) :=
  [ ("@domusjs/core", Str "^0.1.0");
    ("@domusjs/infrastructure", Str "^0.1.0");
    ("express", Str "^5.1.0");
    ("reflect-metadata", Str "^0.2.2");
    ("tsyringe", Str "^4.9.1") ].

(** The object passed to [JSON.stringify] for [package.json]. *)
Definition package_json (projectName typescriptVersion : string) (useEslint : bool)
  : value :=
  Obj [ ("name", Str projectName);
        ("description", Str EmptyString);
        ("version", Str "0.1.0");
        ("main", Str "index.js");
        ("scripts", Obj (scripts useEslint));
        ("keywords", Arr []);
        ("author", Str EmptyString);
        ("license", Str "MIT");
        ("dependencies", Obj dependencies);
        ("devDependencies", Obj (devDependencies typescriptVersion useEslint)) ].

(** The object passed to [JSON.stringify] for [tsconfig.json]. *)
Definition tsconfig_json : value :=
  Obj [ ("compilerOptions",
         Obj [ ("target", Str "es2016");
               ("lib", Arr [ Str "es2022" ]);
               ("experimentalDecorators", Bool true);
               ("emitDecoratorMetadata", Bool true);
               ("module", Str "commonjs");
               ("resolveJsonModule", Bool true);
               ("outDir", Str "dist");
               ("esModuleInterop", Bool true);
               ("forceConsistentCasingInFileNames", Bool true);
               ("strict", Bool true);
               ("skipLibCheck", Bool true) ]) ].

(** The template literal passed to [write('eslint.config.mjs', ...)], before
    [.trim()]. *)
Definition eslint_config_mjs : string :=
"
  import eslintPluginTs from '@typescript-eslint/eslint-plugin';
  import parserTs from '@typescript-eslint/parser';
  
  export default [
    {
      files: ['**/*.ts'],
      ignores: ['dist/**', 'node_modules/**'],
      languageOptions: {
        parser: parserTs,
        parserOptions: {
          project: './tsconfig.json',
          sourceType: 'module'
        }
      },
      plugins: {
        '@typescript-eslint': eslintPluginTs
      },
      rules: {
        semi: ['error', 'always'],
        quotes: ['error', 'single'],
        '@typescript-eslint/explicit-module-boundary-types': 'off'
      }
    }
  ];
  ".

(** The template literal passed to [write('index.ts', ...)]. *)
Definition index_ts : string :=
"
import 'reflect-metadata';

import { container } from 'tsyringe';
import { Logger } from '@domusjs/core';
import { registerDomusCore, PinoLogger } from '@domusjs/infrastructure';

import { createServer } from './server';

async function registerDependencies() {
    registerDomusCore({
    logger: new PinoLogger()
    });
}

async function bootstrap() {
    await registerDependencies(); // Register all dependencies before starting the server

    const logger = container.resolve<Logger>('Logger');

    try {
    const app = createServer();
    const port = process.env.PORT || 3000;

    app.listen(port, () => {
        logger.info(`Server running on port ${port}`);
    });

    process.on('SIGINT', async () => {
        logger.info('Shutting down...');
        process.exit(0);
    });

    } catch (err) {
    logger.error('Error in bootstrap', err);
    }
}

bootstrap();
".

(** The template literal passed to [write('server.ts', ...)]. *)
Definition server_ts : string :=
"
import express from 'express';
import routes from './routes';
import { errorHandler } from '@domusjs/infrastructure';

export function createServer() {

    const app = express();

    app.use(express.json());
    app.use(routes);
    app.use(errorHandler);

    return app;
}
".

(** The template literal passed to [write('routes.ts', ...)]. *)
Definition routes_ts : string :=
"
import { Router } from 'express';

const router = Router();

router.get('/', (req, res) => {
  res.send('Hello World');
});

export default router;
".

(** ** The script *)

(** The answers of the three prompts. *)
Record Response : Type := {
  projectName : string;
  typescriptVersion : string;
  useEslint : bool
}.

Section Script.

(** [process.cwd()] *)
Variable process_cwd : string.

(** Whether a system call succeeds, given the trace before it. *)
Variable host : Trace -> Call -> bool.

Definition syscall (c : Call) : M unit :=
  fun t =>
    if host t c then (Ret tt, t ++ [Sys c true])
    else (Throw, t ++ [Sys c false]).

Definition execSync (command : string) (cwd : option string) (stdio : Stdio) : M unit :=
  syscall (ExecSync command cwd stdio).

Definition mkdirSync (path : string) (recursive : bool) : M unit :=
  syscall (MkdirSync path recursive).

Definition writeFileSync (path data : string) : M unit :=
  syscall (WriteFileSync path data).

Definition versionExists (pkg version : string) : M bool :=
  tryCatch
    (execSync ("npm view " +:+ pkg +:+ "@" +:+ version +:+ " version") None Ignore ;;;
     ret true)
    (ret false).

Definition has (cmd : string) : M bool :=
  tryCatch
    (execSync (cmd +:+ " --version") None Ignore ;;;
     ret true)
    (ret false).

Definition detectPackageManager : M string :=
  let* pnpm := has "pnpm" in
  if pnpm then ret "pnpm" else
  let* yarn := has "yarn" in
  if yarn then ret "yarn" else
  let* bun := has "bun" in
  if bun then ret "bun" else
  ret "npm".

(** *** The prompts *)

Definition onCancel {A} : M A :=
  console_log Cancelled ;;;
  process_exit 1.

(** A [text] prompt: an empty submission stands for [initial]; a rejected
    value leaves the prompt open. *)
Fixpoint textPrompt (name initial : string) (validate : string -> M Validation)
    (keys : list Action) : M (string * list Action) :=
  match keys with
  | [] => blocked
  | Cancel :: _ => onCancel
  | Submit typed :: rest =>
      let value := if Str.isEmpty typed then initial else typed in
      let* v := validate value in
      match v with
      | Valid => ret (value, rest)
      | Invalid error =>
          tell (Reject name error) ;;;
          textPrompt name initial validate rest
      end
  end.

(** A [confirm] prompt: [y] or [n] answers, return alone takes [initial],
    any other key is ignored. *)
Fixpoint confirmPrompt (initial : bool) (keys : list Action) : M (bool * list Action) :=
  match keys with
  | [] => blocked
  | Cancel :: _ => onCancel
  | Submit typed :: rest =>
      if Str.isEmpty typed then ret (initial, rest)
      else if String.eqb typed "y" || String.eqb typed "Y" then ret (true, rest)
      else if String.eqb typed "n" || String.eqb typed "N" then ret (false, rest)
      else confirmPrompt initial rest
  end.

Definition validateProjectName (name : string) : M Validation :=
  ret (if Str.isEmpty name then Invalid "Project name is required" else Valid).

Definition validateTypescriptVersion (value : string) : M Validation :=
  let* isValid := versionExists "typescript" value in
  ret (if isValid then Valid else Invalid "Invalid TypeScript version").

Definition prompts (keys : list Action) : M Response :=
  tell (Ask "projectName") ;;;
  let* a1 := textPrompt "projectName" EmptyString validateProjectName keys in
  tell (Ask "typescriptVersion") ;;;
  let* a2 := textPrompt "typescriptVersion" "5.2.2" validateTypescriptVersion (snd a1) in
  tell (Ask "useEslint") ;;;
  let* a3 := confirmPrompt true (snd a2) in
  ret {| projectName := fst a1; typescriptVersion := fst a2; useEslint := fst a3 |}.

(** *** After the prompts *)

Definition projectDir (projectName : string) : string :=
  Path.resolve process_cwd [process_cwd; projectName].

Definition write (projectDir file content : string) : M unit :=
  writeFileSync (Path.join [projectDir; file]) content.

Definition scaffold (response : Response) : M unit :=
  let projectName := projectName response in
  let typescriptVersion := typescriptVersion response in
  let useEslint := useEslint response in
  let projectDir := projectDir projectName in
  mkdirSync projectDir true ;;;
  let* packageManager := detectPackageManager in
  write projectDir "package.json"
    (stringify (package_json projectName typescriptVersion useEslint)) ;;;
  write projectDir "tsconfig.json" (stringify tsconfig_json) ;;;
  (if useEslint
   then write projectDir "eslint.config.mjs" (Str.trim eslint_config_mjs)
   else ret tt) ;;;
  write projectDir "index.ts" index_ts ;;;
  write projectDir "server.ts" server_ts ;;;
  write projectDir "routes.ts" routes_ts ;;;
  console_log (Created projectName) ;;;
  console_log (Installing packageManager) ;;;
  execSync (packageManager +:+ " install") (Some projectDir) Inherit ;;;
  console_log NextSteps ;;;
  console_log (ChangeDir projectName) ;;;
  console_log (RunDev packageManager).

Definition main (keys : list Action) : M unit :=
  console_log Banner ;;;
  let* response := prompts keys in
  scaffold response.

(** One run of the program, from the empty trace. *)
Definition run (keys : list Action) : Res unit * Trace := main keys [].

End Script.

(** ** File names *)

(** A file name proper: not empty, free of separators, neither [.] nor [..]. *)
Fixpoint noSeparator (s : string) : bool :=
  match s with
  | EmptyString => true
  | String c r => negb (Ascii.eqb c Path.SEP) && noSeparator r
  end.

Definition plain (file : string) : bool :=
  negb (Str.isEmpty file) && negb (String.eqb file ".") && negb (String.eqb file "..")
  && noSeparator file.

(** What [path.join] puts in front of a plain file name. *)
Definition joinPrefix (segments : list string) : string :=
  match segments with
  | [] => EmptyString
  | _ => Str.join "/" segments +:+ "/"
  end.

Definition joinBase (dir : string) : string :=
  if Str.isEmpty dir then EmptyString
  else
    let absolute := Path.isAbsolute dir in
    (if absolute then "/" else EmptyString)
    +:+ joinPrefix (rev (fold_left (Path.normalizeSegment (negb absolute))
                           (Str.split Path.SEP dir) [])).

(** The absolute path with the given segments. *)
Definition absPath (segments : list string) : string := "/" +:+ Str.join "/" segments.

(** ** Reading a trace *)

(** The file a successful [writeFileSync] leaves behind. *)
Definition writtenBy (e : Event) : option (string * string) :=
  match e with
  | Sys (WriteFileSync path data) true => Some (path, data)
  | _ => None
  end.

(** The files written during a trace, in order. *)
Definition written (t : Trace) : list (string * string) := omap writtenBy t.

(** Calls that reach the file system. *)
Definition touchesFileSystem (e : Event) : bool :=
  match e with
  | Sys (MkdirSync _ _) _ | Sys (WriteFileSync _ _) _ => true
  | _ => false
  end.

(** A probe: a subprocess with ignored output and no working directory. *)
Definition isProbe (e : Event) : bool :=
  match e with
  | Sys (ExecSync _ None Ignore) _ => true
  | _ => false
  end.

(** What the prompt stage may leave in the trace: questions, rejections,
    registry queries and the cancellation message. *)
Definition isPromptEvent (e : Event) : bool :=
  match e with
  | Ask _ | Reject _ _ | ConsoleLog Cancelled => true
  | Sys (ExecSync _ None Ignore) _ => true
  | _ => false
  end.

(** How a prompt can end: with an answer, by [process.exit(1)], or still
    waiting.  It never throws. *)
Definition promptEnds {A} (accepted : A -> Prop) (res : Res A) : Prop :=
  match res with
  | Ret a => accepted a
  | Exit code => code = 1
  | Blocked => True
  | Throw => False
  end.

(** The registry knows this version of [typescript]: the query the second
    prompt issues for it succeeds at some point. *)
Definition inRegistry (host : Trace -> Call -> bool) (version : string) : Prop :=
  exists t0,
    host t0 (ExecSync ("npm view typescript@" +:+ version +:+ " version") None Ignore)
    = true.

(** The keys of the manifest's optional block. *)
Definition optionalDevDependencies : list string :=
  ["eslint"; "@typescript-eslint/parser"; "@typescript-eslint/eslint-plugin"].

(** ** The file system

    Directories and regular files, by absolute path.  Only the script's own
    [mkdirSync] and [writeFileSync] calls are replayed.  What a subprocess
    does to the disk is not: the install command fills the project
    directory, and a command line is run by a shell.  A statement about
    [fsAfter] is therefore one about the file-system calls the script itself
    makes, not about the disk after its subprocesses. *)

Record FS : Type := {
  dirs : gset string;
  files : gmap string string
}.

Definition fsStep (fs : FS) (e : Event) : FS :=
  match e with
  | Sys (MkdirSync path true) true =>
      {| dirs := dirs fs ∪ list_to_set (Path.ancestorsAndSelf path); files := files fs |}
  | Sys (MkdirSync path false) true =>
      {| dirs := dirs fs ∪ {[ path ]}; files := files fs |}
  | Sys (WriteFileSync path data) true =>
      {| dirs := dirs fs; files := <[ path := data ]> (files fs) |}
  | _ => fs
  end.

Definition fsAfter (fs : FS) (t : Trace) : FS := fold_left fsStep t fs.

(** ** The artifact sequence

    The spec's ManifestBuilder: the files of a project as a function of the
    answers alone, in the order the script writes them. *)

Record Artifact : Type := {
  relativePath : string;
  content : string
}.

Definition lintArtifact : Artifact :=
  {| relativePath := "eslint.config.mjs"; content := Str.trim eslint_config_mjs |}.

Definition ManifestBuilder (config : Response) : list Artifact :=
  [ {| relativePath := "package.json";
       content := stringify (package_json (projectName config) (typescriptVersion config)
                               (useEslint config)) |};
    {| relativePath := "tsconfig.json"; content := stringify tsconfig_json |} ]
  ++ (if useEslint config then [ lintArtifact ] else [])
  ++ [ {| relativePath := "index.ts"; content := index_ts |};
       {| relativePath := "server.ts"; content := server_ts |};
       {| relativePath := "routes.ts"; content := routes_ts |} ].

(** Where an artifact lands, and with what bytes. *)
Definition emit (dir : string) (a : Artifact) : string * string :=
  (Path.join [dir; relativePath a], content a).

Definition wrote (dir : string) (ok : bool) (a : Artifact) : Event :=
  Sys (WriteFileSync (Path.join [dir; relativePath a]) (content a)) ok.

(** ** The shapes a run can take *)

Definition probe (cmd : string) (ok : bool) : Event :=
  Sys (ExecSync (cmd +:+ " --version") None Ignore) ok.

(** The prioritized candidates, highest priority first, and the fallback. *)
Definition candidates : list string := ["pnpm"; "yarn"; "bun"].
Definition fallback : string := "npm".

Inductive Detected : string -> Trace -> Prop :=
| DetectedPnpm : Detected "pnpm" [probe "pnpm" true]
| DetectedYarn : Detected "yarn" [probe "pnpm" false; probe "yarn" true]
| DetectedBun : Detected "bun" [probe "pnpm" false; probe "yarn" false; probe "bun" true]
| DetectedNone : Detected "npm" [probe "pnpm" false; probe "yarn" false; probe "bun" false].

Definition install (packageManager dir : string) (ok : bool) : Event :=
  Sys (ExecSync (packageManager +:+ " install") (Some dir) Inherit) ok.

(** What [scaffold] adds to the trace, and how it ends. *)
Inductive Scaffolded (dir : string) (r : Response) : Res unit -> Trace -> Prop :=
| MkdirFailed :
    Scaffolded dir r Throw [Sys (MkdirSync dir true) false]
| WriteFailed pm probes done a todo :
    Detected pm probes ->
    ManifestBuilder r = done ++ a :: todo ->
    Scaffolded dir r Throw
      (Sys (MkdirSync dir true) true :: probes
         ++ map (wrote dir true) done ++ [wrote dir false a])
| InstallFailed pm probes :
    Detected pm probes ->
    Scaffolded dir r Throw
      (Sys (MkdirSync dir true) true :: probes
         ++ map (wrote dir true) (ManifestBuilder r)
         ++ [ConsoleLog (Created (projectName r)); ConsoleLog (Installing pm);
             install pm dir false])
| Completed pm probes :
    Detected pm probes ->
    Scaffolded dir r (Ret tt)
      (Sys (MkdirSync dir true) true :: probes
         ++ map (wrote dir true) (ManifestBuilder r)
         ++ [ConsoleLog (Created (projectName r)); ConsoleLog (Installing pm);
             install pm dir true;
             ConsoleLog NextSteps; ConsoleLog (ChangeDir (projectName r));
             ConsoleLog (RunDev pm)]).

(** ** Hosts used as examples *)

(** Every call succeeds. *)
Definition allOk : Trace -> Call -> bool := fun _ _ => true.

(** Every call succeeds but the install command. *)
Definition installFails : Trace -> Call -> bool :=
  fun _ c =>
    match c with
    | ExecSync _ (Some _) _ => false
    | _ => true
    end.

(** No prioritized package manager is on the host. *)
Definition onlyNpm : Trace -> Call -> bool :=
  fun _ c =>
    match c with
    | ExecSync command None _ =>
        negb (existsb (fun c => String.eqb command (c +:+ " --version")) candidates)
    | _ => true
    end.

(** A disk holding nothing but the working directory [/home/dev]. *)
Definition homeDev : FS :=
  {| dirs := list_to_set ["/"; "/home"; "/home/dev"]; files := ∅ |}.

(** ** The host's answers in a trace *)

(** The events [new], appended to [t], carry the answers the host gave: each
    system call in them succeeded exactly when the host, asked with the
    trace up to that call, said so. *)
Fixpoint hostAnswers (host : Trace -> Call -> bool) (t new : Trace) : Prop :=
  match new with
  | [] => True
  | e :: rest =>
      match e with
      | Sys c ok => host t c = ok
      | _ => True
      end
      /\ hostAnswers host (t ++ [e]) rest
  end.

(** A computation that only appends to the trace, and appends the host's
    answers. *)
Definition Faithful (host : Trace -> Call -> bool) {A} (m : M A) : Prop :=
  forall t, exists new, snd (m t) = t ++ new /\ hostAnswers host t new.

(** The questions asked during a trace, in order. *)
Definition asked (e : Event) : option string :=
  match e with
  | Ask question => Some question
  | _ => None
  end.

Definition questions (t : Trace) : list string := omap asked t.

(** ** More hosts used as examples *)

(** The project directory cannot be created. *)
Definition mkdirFails : Trace -> Call -> bool :=
  fun _ c =>
    match c with
    | MkdirSync _ _ => false
    | _ => true
    end.

(** Every file can be written but [index.ts]. *)
Definition indexFails : Trace -> Call -> bool :=
  fun _ c =>
    match c with
    | WriteFileSync path _ => negb (String.eqb path "/home/dev/my-app/index.ts")
    | _ => true
    end.

(** The registry cannot be reached: every [npm view] fails. *)
Definition registryDown : Trace -> Call -> bool :=
  fun _ c =>
    match c with
    | ExecSync command None Ignore => negb (String.prefix "npm view " command)
    | _ => true
    end.

(** ** The dialogue with the operator *)

(** What a prompt leaves in the trace while it stays open: rejections and
    registry queries. *)
Definition isAttempt (e : Event) : bool :=
  match e with
  | Reject _ _ => true
  | Sys (ExecSync _ None Ignore) _ => true
  | _ => false
  end.

(** The same, and the questions. *)
Definition isDialogue (e : Event) : bool :=
  match e with
  | Ask _ => true
  | _ => isAttempt e
  end.

(** The three questions, in the order of the array passed to [prompts]. *)
Definition questionnaire : list string :=
  ["projectName"; "typescriptVersion"; "useEslint"].

(** The value a text prompt takes from what was typed. *)
Definition valueOf (initial typed : string) : string :=
  if Str.isEmpty typed then initial else typed.

Definition registryQuery (version : string) : Call :=
  ExecSync ("npm view typescript@" +:+ version +:+ " version") None Ignore.

(** A registry that knows typescript 5.2.2 and nothing else. *)
Definition knowsOnlyDefault (version : string) : bool :=
  String.eqb ("npm view typescript@" +:+ version +:+ " version")
    "npm view typescript@5.2.2 version".

Definition onlyDefaultVersion : Trace -> Call -> bool :=
  fun _ c =>
    match c with
    | ExecSync command None Ignore =>
        if String.prefix "npm view " command
        then String.eqb command "npm view typescript@5.2.2 version"
        else true
    | _ => true
    end.

(** What the version prompt leaves in the trace for a rejected submission. *)
Definition rejectedVersion (typed : string) : Trace :=
  [Sys (registryQuery (valueOf "5.2.2" typed)) false;
   Reject "typescriptVersion" "Invalid TypeScript version"].

(** ** The end of the input

    At [Blocked] a prompt is open and the operator may still type.  When the
    input stream itself ends there, the promise of [prompts] never settles,
    the event loop runs empty, and Node ends the process with its exit code
    for an unsettled top-level [await]. *)
Definition kUnsettledTopLevelAwait : nat := 13.

(** The exit code of the process, given whether the input stream has ended
    after the operator's actions; none while a prompt waits on an open
    stream. *)
Definition exitStatus {A} (inputEnded : bool) (r : Res A) : option nat :=
  match r with
  | Blocked => if inputEnded then Some kUnsettledTopLevelAwait else None
  | _ => exitCode r
  end.

(** ** Reading a quoted string back

    The inverse of [JSON.quoteChar], used to show that the manifest keeps
    the answers apart. *)

Definition hexValue (c : ascii) : option nat :=
  let n := nat_of_ascii c in
  if Nat.leb 48 n && Nat.leb n 57 then Some (n - 48)
  else if Nat.leb 97 n && Nat.leb n 102 then Some (n - 87)
  else None.

(** The first character a quoted string stands for, and what follows its
    encoding; nothing at the closing quote or at a malformed escape. *)
Definition unquoteHead (s : string) : option (ascii * string) :=
  match s with
  | EmptyString => None
  | String c r =>
      if Ascii.eqb c "034"%char then None
      else if Ascii.eqb c "\"%char then
        match r with
        | String e r' =>
            if Ascii.eqb e "b"%char then Some ("008"%char, r')
            else if Ascii.eqb e "t"%char then Some ("009"%char, r')
            else if Ascii.eqb e "n"%char then Some ("010"%char, r')
            else if Ascii.eqb e "f"%char then Some ("012"%char, r')
            else if Ascii.eqb e "r"%char then Some ("013"%char, r')
            else if Ascii.eqb e "034"%char then Some ("034"%char, r')
            else if Ascii.eqb e "\"%char then Some ("\"%char, r')
            else if Ascii.eqb e "u"%char then
              match r' with
              | String _ (String _ (String h (String l r''))) =>
                  match hexValue h, hexValue l with
                  | Some x, Some y => Some (ascii_of_nat (16 * x + y), r'')
                  | _, _ => None
                  end
              | _ => None
              end
            else None
        | EmptyString => None
        end
      else Some (c, r)
  end.

(** * Properties *)

(** ** The library functions on small inputs *)

Example resolve_plain_name :
  Path.resolve "/home/dev" ["/home/dev"; "my-app"] = "/home/dev/my-app".
Proof. reflexivity. Qed.

Example resolve_dots :
  Path.resolve "/home/dev" ["/home/dev"; "./a/../../b//c/"] = "/home/b/c".
Proof. reflexivity. Qed.

Example resolve_above_root :
  Path.resolve "/home" ["/home"; "../../.."] = "/".
Proof. reflexivity. Qed.

Example join_in_root : Path.join ["/"; "package.json"] = "/package.json".
Proof. reflexivity. Qed.

Example normalize_relative : Path.normalize "a/../../b/" = "../b/".
Proof. reflexivity. Qed.

Example trim_both_ends :
  Str.trim (Str.LF +:+ "  a b " +:+ Str.LF +:+ "  ") = "a b".
Proof. reflexivity. Qed.

Example stringify_empty_containers :
  stringify (Obj []) = "{}" /\ stringify (Arr []) = "[]".
Proof. split; reflexivity. Qed.

Example stringify_nested :
  stringify (Obj [("k", Arr [Bool true; Str "v"])])
  = "{" +:+ Str.LF
    +:+ "  " +:+ Str.DQ +:+ "k" +:+ Str.DQ +:+ ": [" +:+ Str.LF
    +:+ "    true," +:+ Str.LF
    +:+ "    " +:+ Str.DQ +:+ "v" +:+ Str.DQ +:+ Str.LF
    +:+ "  ]" +:+ Str.LF
    +:+ "}".
Proof. reflexivity. Qed.

Example quote_escapes :
  quote ("a" +:+ Str.DQ +:+ "b\c" +:+ Str.LF)
  = Str.DQ +:+ "a\" +:+ Str.DQ +:+ "b\\c\n" +:+ Str.DQ.
Proof. reflexivity. Qed.

Example lint_configuration_starts_unindented :
  String.substring 0 22 (Str.trim eslint_config_mjs) = "import eslintPluginTs ".
Proof. reflexivity. Qed.


Example end_of_input_at_second_prompt :
  exitStatus true (fst (run "/home/dev" allOk [Submit "my-app"])) = Some 13
  /\ exitStatus false (fst (run "/home/dev" allOk [Submit "my-app"])) = None.
Proof. split; reflexivity. Qed.

(** ** The monad and the trace *)

Lemma written_app (t1 t2 : Trace) : written (t1 ++ t2) = written t1 ++ written t2.
Proof. unfold written. apply omap_app. Qed.

Lemma written_wrote dir (l : list Artifact) :
  written (map (wrote dir true) l) = map (emit dir) l.
Proof.
  induction l as [|a l IH]; [reflexivity|].
  cbn. unfold written in IH. now rewrite IH.
Qed.

Section Runs.

Variable process_cwd : string.
Variable host : Trace -> Call -> bool.

Lemma has_run cmd t :
  has host cmd t = (Ret (host t (ExecSync (cmd +:+ " --version") None Ignore)),
                    t ++ [probe cmd (host t (ExecSync (cmd +:+ " --version") None Ignore))]).
Proof.
  unfold has, tryCatch, bind, execSync, syscall, ret, probe.
  now destruct (host t _).
Qed.

Lemma detect_run t :
  exists pm probes,
    detectPackageManager host t = (Ret pm, t ++ probes) /\ Detected pm probes.
Proof.
  unfold detectPackageManager, bind.
  rewrite has_run. destruct (host t _).
  { eexists _, _. split; [reflexivity | constructor]. }
  rewrite has_run. destruct (host (t ++ _) _).
  { eexists _, _. rewrite <- app_assoc. split; [reflexivity | constructor]. }
  rewrite has_run. destruct (host ((t ++ _) ++ _) _).
  all: eexists _, _; rewrite <- !app_assoc; split; [reflexivity | constructor].
Qed.

Lemma bind_run {A B} (m : M A) (k : A -> M B) t :
  bind m k t =
    match m t with
    | (Ret a, t') => k a t'
    | (Throw, t') => (Throw, t')
    | (Exit code, t') => (Exit code, t')
    | (Blocked, t') => (Blocked, t')
    end.
Proof. reflexivity. Qed.

Lemma write_run dir file data t :
  write host dir file data t =
    if host t (WriteFileSync (Path.join [dir; file]) data)
    then (Ret tt, t ++ [Sys (WriteFileSync (Path.join [dir; file]) data) true])
    else (Throw, t ++ [Sys (WriteFileSync (Path.join [dir; file]) data) false]).
Proof. reflexivity. Qed.

(** The write of the artifact at position [k] fails. *)
Lemma write_failed_at dir r k pm probes :
  Detected pm probes ->
  k < length (ManifestBuilder r) ->
  Scaffolded dir r Throw
    (Sys (MkdirSync dir true) true :: probes
       ++ map (wrote dir true) (firstn k (ManifestBuilder r))
       ++ [wrote dir false (nth k (ManifestBuilder r) lintArtifact)]).
Proof.
  intros HD Hk.
  apply (WriteFailed dir r pm probes _ _ (skipn (S k) (ManifestBuilder r)) HD).
  rewrite <- (firstn_skipn k (ManifestBuilder r)) at 1.
  f_equal. revert Hk. generalize (ManifestBuilder r). clear.
  induction k as [|k IH]; intros [|a l] H; cbn in *; try lia; [reflexivity|].
  apply IH. lia.
Qed.

Ltac write_step :=
  rewrite bind_run, write_run;
  match goal with |- context [host ?t ?c] => destruct (host t c) end;
  cbv beta iota.

Ltac log_step :=
  rewrite bind_run; unfold console_log at 1, tell at 1; cbv beta iota.

Ltac write_fails k HD :=
  eexists _, _; split;
  [ rewrite <- !app_assoc; reflexivity
  | match goal with
    | |- Scaffolded ?d ?r _ _ => exact (write_failed_at d r k _ _ HD ltac:(cbn; lia))
    end ].

Lemma scaffold_run r t :
  exists res new,
    scaffold process_cwd host r t = (res, t ++ new)
    /\ Scaffolded (projectDir process_cwd (projectName r)) r res new.
Proof.
  destruct r as [name v e]. unfold scaffold.
  cbn [projectName typescriptVersion useEslint].
  set (dir := projectDir process_cwd name).
  rewrite bind_run. unfold mkdirSync, syscall.
  destruct (host t _); cbv beta iota;
    [| eexists _, _; split; [reflexivity | apply MkdirFailed] ].
  rewrite bind_run.
  destruct (detect_run (t ++ [Sys (MkdirSync dir true) true])) as (pm & ps & -> & HD).
  destruct e.
  - write_step; [| write_fails 0 HD].
    write_step; [| write_fails 1 HD].
    write_step; [| write_fails 2 HD].
    write_step; [| write_fails 3 HD].
    write_step; [| write_fails 4 HD].
    write_step; [| write_fails 5 HD].
    do 2 log_step. rewrite bind_run. unfold execSync, syscall.
    match goal with |- context [host ?t ?c] => destruct (host t c) end; cbv beta iota.
    + do 2 log_step. unfold console_log, tell.
      eexists _, _; split; [ rewrite <- !app_assoc; reflexivity |].
      exact (Completed _ _ pm ps HD).
    + eexists _, _; split; [ rewrite <- !app_assoc; reflexivity |].
      exact (InstallFailed _ _ pm ps HD).
  - write_step; [| write_fails 0 HD].
    write_step; [| write_fails 1 HD].
    rewrite bind_run. cbv beta iota. unfold ret at 1. cbv beta iota.
    write_step; [| write_fails 2 HD].
    write_step; [| write_fails 3 HD].
    write_step; [| write_fails 4 HD].
    do 2 log_step. rewrite bind_run. unfold execSync, syscall.
    match goal with |- context [host ?t ?c] => destruct (host t c) end; cbv beta iota.
    + do 2 log_step. unfold console_log, tell.
      eexists _, _; split; [ rewrite <- !app_assoc; reflexivity |].
      exact (Completed _ _ pm ps HD).
    + eexists _, _; split; [ rewrite <- !app_assoc; reflexivity |].
      exact (InstallFailed _ _ pm ps HD).
Qed.

(** *** The prompts *)

Lemma versionExists_run pkg version t :
  let query := ExecSync ("npm view " +:+ pkg +:+ "@" +:+ version +:+ " version")
                 None Ignore in
  versionExists host pkg version t = (Ret (host t query), t ++ [Sys query (host t query)]).
Proof.
  cbv zeta. unfold versionExists, tryCatch, bind, execSync, syscall, ret.
  now destruct (host t _).
Qed.

Lemma textPrompt_run name initial (validate : string -> M Validation) keys t :
  (forall value t0, exists v new,
      validate value t0 = (Ret v, t0 ++ new) /\ forallb isPromptEvent new = true) ->
  exists res new,
    textPrompt name initial validate keys t = (res, t ++ new)
    /\ forallb isPromptEvent new = true
    /\ promptEnds (fun a => exists t0 t1, validate (fst a) t0 = (Ret Valid, t1)) res.
Proof.
  intros Hv. revert t.
  induction keys as [|[typed|] rest IH]; intros t.
  - exists Blocked, []. rewrite app_nil_r. now cbn.
  - cbn [textPrompt]. rewrite bind_run.
    set (value := if Str.isEmpty typed then initial else typed).
    destruct (Hv value t) as (v & new & Hval & Hnew). rewrite Hval.
    destruct v as [|error].
    + exists (Ret (value, rest)), new. repeat split; [exact Hnew|].
      cbn. now exists t, (t ++ new).
    + rewrite bind_run. unfold tell at 1. cbv beta iota.
      destruct (IH ((t ++ new) ++ [Reject name error])) as (res & new' & -> & Hnew' & Hres).
      exists res, (new ++ Reject name error :: new').
      split; [now rewrite <- !app_assoc|]. split; [|exact Hres].
      rewrite forallb_app, Hnew. cbn. exact Hnew'.
  - exists (Exit 1), [ConsoleLog Cancelled]. now cbn.
Qed.

Lemma confirmPrompt_run initial keys t :
  exists res new,
    confirmPrompt initial keys t = (res, t ++ new)
    /\ forallb isPromptEvent new = true
    /\ promptEnds (fun _ => True) res.
Proof.
  induction keys as [|[typed|] rest IH].
  - exists Blocked, []. rewrite app_nil_r. now cbn.
  - cbn [confirmPrompt].
    destruct (Str.isEmpty typed);
      [eexists _, []; rewrite app_nil_r; now cbn|].
    destruct (_ || _); [eexists _, []; rewrite app_nil_r; now cbn|].
    destruct (_ || _); [eexists _, []; rewrite app_nil_r; now cbn|].
    exact IH.
  - exists (Exit 1), [ConsoleLog Cancelled]. now cbn.
Qed.

Lemma validateProjectName_run value t0 :
  exists v new,
    validateProjectName value t0 = (Ret v, t0 ++ new)
    /\ forallb isPromptEvent new = true.
Proof. eexists _, []. rewrite app_nil_r. now cbn. Qed.

Lemma validateTypescriptVersion_run value t0 :
  exists v new,
    validateTypescriptVersion host value t0 = (Ret v, t0 ++ new)
    /\ forallb isPromptEvent new = true.
Proof.
  unfold validateTypescriptVersion. rewrite bind_run, versionExists_run.
  eexists _, [_]. now cbn.
Qed.

Ltac prompt_over H :=
  eexists _, _; split; [rewrite <- ?app_assoc; reflexivity|];
  split; [| exact H || exact I || reflexivity];
  repeat first
    [ rewrite forallb_app
    | progress cbn [forallb isPromptEvent andb]
    | match goal with E : forallb _ _ = true |- _ => rewrite E end ];
  reflexivity.

Lemma prompts_run keys t :
  exists res new,
    prompts host keys t = (res, t ++ new)
    /\ forallb isPromptEvent new = true
    /\ promptEnds (fun r => projectName r <> EmptyString
                            /\ inRegistry host (typescriptVersion r)) res.
Proof.
  unfold prompts. rewrite bind_run. unfold tell at 1. cbv beta iota.
  rewrite bind_run.
  destruct (textPrompt_run "projectName" EmptyString validateProjectName keys
              (t ++ [Ask "projectName"]) validateProjectName_run)
    as (res1 & new1 & -> & Hn1 & He1).
  destruct res1 as [[name keys1]| |code|]; [| contradiction | prompt_over He1 ..].
  rewrite bind_run. unfold tell at 1. cbv beta iota. rewrite bind_run.
  cbn [fst snd].
  destruct (textPrompt_run "typescriptVersion" "5.2.2" (validateTypescriptVersion host)
              keys1 (((t ++ [Ask "projectName"]) ++ new1) ++ [Ask "typescriptVersion"])
              validateTypescriptVersion_run)
    as (res2 & new2 & -> & Hn2 & He2).
  destruct res2 as [[version keys2]| |code|]; [| contradiction | prompt_over He2 ..].
  rewrite bind_run. unfold tell at 1. cbv beta iota. rewrite bind_run.
  cbn [fst snd].
  destruct (confirmPrompt_run true keys2
              (((((t ++ [Ask "projectName"]) ++ new1) ++ [Ask "typescriptVersion"])
                  ++ new2) ++ [Ask "useEslint"]))
    as (res3 & new3 & -> & Hn3 & He3).
  destruct res3 as [[eslint keys3]| |code|]; [| contradiction | prompt_over He3 ..].
  unfold ret.
  assert (name <> EmptyString /\ inRegistry host version) as Hacc.
  { split.
    - destruct He1 as (t0 & t1 & Hv). cbn in Hv. intros ->. discriminate Hv.
    - destruct He2 as (t0 & t1 & Hv). cbn [fst] in Hv.
      unfold validateTypescriptVersion in Hv.
      rewrite bind_run, versionExists_run in Hv. exists t0.
      destruct (host t0 _); [reflexivity | discriminate Hv]. }
  prompt_over Hacc.
Qed.

(** *** The whole run *)

Lemma main_run keys :
  let (res, t) := run process_cwd host keys in
  (exists asked,
      t = ConsoleLog Banner :: asked
      /\ forallb isPromptEvent asked = true
      /\ (res = Exit 1 \/ res = Blocked))
  \/ (exists r asked new,
        prompts host keys [ConsoleLog Banner] = (Ret r, ConsoleLog Banner :: asked)
        /\ forallb isPromptEvent asked = true
        /\ projectName r <> EmptyString
        /\ inRegistry host (typescriptVersion r)
        /\ t = ConsoleLog Banner :: asked ++ new
        /\ Scaffolded (projectDir process_cwd (projectName r)) r res new).
Proof.
  unfold run, main. rewrite bind_run. unfold console_log at 1, tell at 1.
  cbv beta iota. rewrite bind_run. cbn [app].
  destruct (prompts_run keys [ConsoleLog Banner]) as (res & asked & Hp & Hasked & Hres).
  rewrite Hp.
  destruct res as [r| |code|]; [| contradiction | ..].
  - destruct (scaffold_run r ([ConsoleLog Banner] ++ asked)) as (res & new & -> & HS).
    right. exists r, asked, new. destruct Hres as [Hname Hreg].
    rewrite <- app_assoc. now repeat split.
  - left. exists asked. cbn in Hres. subst code. now repeat split; auto.
  - left. exists asked. now repeat split; auto.
Qed.

End Runs.

(** ** Paths of the project files *)

Module PathFacts.

Lemma append_cons c (a b : string) : String c a +:+ b = String c (a +:+ b).
Proof. reflexivity. Qed.

Lemma append_empty (b : string) : EmptyString +:+ b = b.
Proof. reflexivity. Qed.

Lemma append_assoc (a b c : string) : (a +:+ b) +:+ c = a +:+ (b +:+ c).
Proof.
  induction a as [|x a IH]; rewrite ?append_cons, ?append_empty;
    [reflexivity | now rewrite IH].
Qed.

Lemma append_cancel (pre a b : string) : pre +:+ a = pre +:+ b -> a = b.
Proof.
  induction pre as [|x pre IH]; rewrite ?append_cons, ?append_empty; intros H;
    [exact H | injection H; auto].
Qed.

Lemma split_not_nil sep s : Str.split sep s <> [].
Proof.
  destruct s as [|c r]; cbn; [discriminate|].
  destruct (Ascii.eqb c sep); [discriminate|].
  destruct (Str.split sep r); discriminate.
Qed.

Lemma split_plain f : noSeparator f = true -> Str.split Path.SEP f = [f].
Proof.
  induction f as [|c r IH]; cbn; [reflexivity|].
  intros [Hc Hr]%andb_prop. apply negb_true_iff in Hc. rewrite Hc, (IH Hr).
  reflexivity.
Qed.

Lemma split_app dir f :
  Str.split Path.SEP (dir +:+ String Path.SEP f)
  = Str.split Path.SEP dir ++ Str.split Path.SEP f.
Proof.
  induction dir as [|c r IH]; rewrite ?append_cons, ?append_empty; cbn [Str.split].
  - now rewrite Ascii.eqb_refl.
  - destruct (Ascii.eqb c Path.SEP).
    + rewrite IH. reflexivity.
    + rewrite IH. pose proof (split_not_nil Path.SEP r) as Hne.
      destruct (Str.split Path.SEP r); [contradiction | reflexivity].
Qed.

Lemma join_snoc segments f :
  Str.join "/" (segments ++ [f]) = joinPrefix segments +:+ f.
Proof.
  induction segments as [|s rest IH]; [reflexivity|].
  destruct rest as [|s' rest].
  - cbn [app Str.join joinPrefix]. symmetry. apply append_assoc.
  - change (Str.join "/" ((s :: s' :: rest) ++ [f]))
      with (s +:+ "/" +:+ Str.join "/" ((s' :: rest) ++ [f])).
    rewrite IH. unfold joinPrefix.
    change (Str.join "/" (s :: s' :: rest))
      with (s +:+ "/" +:+ Str.join "/" (s' :: rest)).
    now rewrite !append_assoc.
Qed.

Lemma endsWith_append c a f :
  Str.isEmpty f = false -> Str.endsWith c (a +:+ f) = Str.endsWith c f.
Proof.
  intros Hf. induction a as [|x a IH]; [reflexivity|].
  rewrite append_cons. cbn [Str.endsWith]. rewrite IH.
  destruct (a +:+ f) eqn:E; [|reflexivity].
  destruct a; [rewrite append_empty in E; subst f; discriminate | discriminate].
Qed.

Lemma endsWith_plain f : noSeparator f = true -> Str.endsWith Path.SEP f = false.
Proof.
  induction f as [|c r IH]; [reflexivity|]. cbn.
  intros [Hc Hr]%andb_prop. apply negb_true_iff in Hc.
  destruct r; [exact Hc | now apply IH].
Qed.

Lemma isEmpty_append a f : Str.isEmpty f = false -> Str.isEmpty (a +:+ f) = false.
Proof. destruct a; [auto | reflexivity]. Qed.

Lemma normalizeSegment_plain allow res f :
  plain f = true -> Path.normalizeSegment allow res f = f :: res.
Proof.
  unfold plain, Path.normalizeSegment.
  intros [[[H1 H2]%andb_prop H3]%andb_prop _]%andb_prop.
  apply negb_true_iff in H1, H2, H3. now rewrite H1, H2, H3.
Qed.

Lemma normalizeString_file s f allow :
  plain f = true ->
  Path.normalizeString (s +:+ String Path.SEP f) allow
  = joinPrefix (rev (fold_left (Path.normalizeSegment allow) (Str.split Path.SEP s) []))
    +:+ f.
Proof.
  intros Hf. unfold Path.normalizeString.
  assert (noSeparator f = true) as Hsep by (now apply andb_prop in Hf as [_ ?]).
  rewrite split_app, (split_plain f Hsep), fold_left_app. cbn [fold_left].
  rewrite (normalizeSegment_plain _ _ _ Hf). cbn [rev]. apply join_snoc.
Qed.

(** [path.join(dir, file)] is a prefix fixed by [dir], then the file name. *)
Lemma join_file dir f : plain f = true -> Path.join [dir; f] = joinBase dir +:+ f.
Proof.
  intros Hf.
  assert (Str.isEmpty f = false /\ noSeparator f = true) as [Hne Hsep].
  { unfold plain in Hf.
    apply andb_prop in Hf as [[[H1 _]%andb_prop _]%andb_prop H4].
    now apply negb_true_iff in H1. }
  unfold Path.join, joinBase. cbn [List.filter]. rewrite Hne. cbn [negb].
  destruct dir as [|c dir].
  - cbn [Str.isEmpty negb Str.join]. unfold Path.normalize. rewrite Hne.
    assert (Path.isAbsolute f = false) as ->.
    { destruct f as [|x f]; [reflexivity|]. cbn in Hsep |- *.
      apply andb_prop in Hsep as [Hx _]. now apply negb_true_iff in Hx. }
    rewrite (endsWith_plain f Hsep). cbn [negb].
    unfold Path.normalizeString. rewrite (split_plain f Hsep). cbn [fold_left].
    rewrite (normalizeSegment_plain _ _ _ Hf). cbn. now rewrite Hne.
  - cbn [Str.isEmpty negb Str.join].
    set (d := String c dir).
    change (d +:+ "/" +:+ f) with (d +:+ String Path.SEP f).
    unfold Path.normalize.
    assert (Str.isEmpty (d +:+ String Path.SEP f) = false) as -> by reflexivity.
    assert (Path.isAbsolute (d +:+ String Path.SEP f) = Path.isAbsolute d) as ->
      by reflexivity.
    assert (Str.endsWith Path.SEP (d +:+ String Path.SEP f) = false) as ->.
    { rewrite endsWith_append by reflexivity.
      destruct f as [|x f']; [discriminate|].
      exact (endsWith_plain (String x f') Hsep). }
    rewrite (normalizeString_file d f _ Hf).
    rewrite (isEmpty_append _ f Hne).
    destruct (Path.isAbsolute d); [now rewrite append_assoc | reflexivity].
Qed.

Lemma join_file_inj dir f g :
  plain f = true -> plain g = true ->
  Path.join [dir; f] = Path.join [dir; g] -> f = g.
Proof.
  intros Hf Hg. rewrite (join_file dir f Hf), (join_file dir g Hg).
  apply append_cancel.
Qed.

(** *** Paths given by their segments *)

Lemma split_join segments :
  Forall (fun s => plain s = true) segments -> segments <> [] ->
  Str.split Path.SEP (Str.join "/" segments) = segments.
Proof.
  induction 1 as [|s rest Hs Hrest IH]; [contradiction|]. intros _.
  assert (noSeparator s = true) as Hsep by (now apply andb_prop in Hs as [_ ?]).
  destruct rest as [|s' rest]; [exact (split_plain s Hsep)|].
  change (Str.join "/" (s :: s' :: rest))
    with (s +:+ String Path.SEP (Str.join "/" (s' :: rest))).
  rewrite split_app, (split_plain s Hsep), IH by discriminate. reflexivity.
Qed.

Lemma fold_plain allow segments res :
  Forall (fun s => plain s = true) segments ->
  fold_left (Path.normalizeSegment allow) segments res = rev segments ++ res.
Proof.
  intros H. revert res. induction H as [|s rest Hs _ IH]; intros res; [reflexivity|].
  cbn [fold_left rev]. rewrite (normalizeSegment_plain _ _ _ Hs), IH, <- app_assoc.
  reflexivity.
Qed.

Lemma fold_absPath allow segments :
  Forall (fun s => plain s = true) segments ->
  fold_left (Path.normalizeSegment allow) (Str.split Path.SEP (absPath segments)) []
  = rev segments.
Proof.
  intros H. unfold absPath.
  change ("/" +:+ Str.join "/" segments)
    with (EmptyString +:+ String Path.SEP (Str.join "/" segments)).
  rewrite split_app. cbn [Str.split app fold_left].
  change (Path.normalizeSegment allow [] EmptyString) with (@nil string).
  destruct segments as [|s rest]; [reflexivity|].
  rewrite (split_join _ H) by discriminate.
  rewrite (fold_plain _ _ _ H). apply app_nil_r.
Qed.

(** A relative name is resolved segment by segment from the working
    directory. *)
Lemma resolve_relative cwd name :
  Forall (fun s => plain s = true) cwd ->
  Str.isEmpty name = false -> Path.isAbsolute name = false ->
  Path.resolve (absPath cwd) [absPath cwd; name]
  = absPath (rev (fold_left (Path.normalizeSegment false)
                    (Str.split Path.SEP name) (rev cwd))).
Proof.
  intros Hcwd Hne Hrel.
  assert (fold_left Path.resolveArg (rev [absPath cwd; name] ++ [absPath cwd])
            (EmptyString, false)
          = (absPath cwd +:+ String Path.SEP (name +:+ String Path.SEP EmptyString), true))
    as Hfold.
  { cbn [rev app fold_left]. unfold Path.resolveArg at 3. cbn [orb].
    rewrite Hne, Hrel. unfold Path.resolveArg at 2. cbn [orb].
    change (Str.isEmpty (absPath cwd)) with false.
    change (Path.isAbsolute (absPath cwd)) with true. cbv beta iota.
    reflexivity. }
  unfold Path.resolve. rewrite Hfold. cbn [negb]. unfold Path.normalizeString.
  rewrite !split_app, !fold_left_app, (fold_absPath _ _ Hcwd).
  reflexivity.
Qed.


Lemma resolve_child cwd name :
  Forall (fun s => plain s = true) cwd -> plain name = true ->
  Path.resolve (absPath cwd) [absPath cwd; name] = absPath (cwd ++ [name]).
Proof.
  intros Hcwd Hname.
  assert (Str.isEmpty name = false /\ noSeparator name = true) as [Hne Hsep].
  { unfold plain in Hname.
    apply andb_prop in Hname as [[[H1 _]%andb_prop _]%andb_prop H4].
    now apply negb_true_iff in H1. }
  rewrite resolve_relative; [|exact Hcwd|exact Hne|].
  - rewrite (split_plain name Hsep). cbn [fold_left].
    rewrite (normalizeSegment_plain _ _ _ Hname). cbn [rev]. now rewrite rev_involutive.
  - destruct name as [|c name]; [reflexivity|]. cbn in Hsep |- *.
    apply andb_prop in Hsep as [Hc _]. now apply negb_true_iff in Hc.
Qed.



(** A plain file name joined to a directory is one more segment. *)
Lemma join_child dir f :
  Forall (fun s => plain s = true) dir -> plain f = true ->
  Path.join [absPath dir; f] = absPath (dir ++ [f]).
Proof.
  intros Hdir Hf. rewrite (join_file _ _ Hf). unfold joinBase.
  change (Str.isEmpty (absPath dir)) with false.
  change (Path.isAbsolute (absPath dir)) with true. cbn [negb].
  rewrite (fold_absPath _ _ Hdir), rev_involutive.
  unfold absPath. now rewrite join_snoc, append_assoc.
Qed.

End PathFacts.

(** ** What a run leaves in the trace *)

Lemma Detected_probes pm probes :
  Detected pm probes ->
  In pm (candidates ++ [fallback]) /\ forallb isProbe probes = true.
Proof. destruct 1; cbn; auto 10. Qed.

Lemma not_in_probes probes e :
  forallb isProbe probes = true -> isProbe e = false -> ~ In e probes.
Proof.
  intros Hall He Hin. rewrite forallb_forall in Hall.
  apply Hall in Hin. congruence.
Qed.

Lemma written_probes probes : forallb isProbe probes = true -> written probes = [].
Proof.
  induction probes as [|e l IH]; [reflexivity|]. cbn [forallb].
  intros [He Hl]%andb_prop. unfold written in *. cbn [omap list_omap].
  destruct e as [[? [?|] []| |] ?| | |]; try discriminate He. now apply IH.
Qed.

Lemma written_asked asked : forallb isPromptEvent asked = true -> written asked = [].
Proof.
  induction asked as [|e l IH]; [reflexivity|]. cbn [forallb].
  intros [He Hl]%andb_prop. unfold written in *. cbn [omap list_omap].
  destruct e as [[? [?|] []| |] ?|[]| |]; try discriminate He; now apply IH.
Qed.

Lemma in_wrote dir ok l e :
  In e (map (wrote dir ok) l) ->
  exists a, In a l /\ e = Sys (WriteFileSync (Path.join [dir; relativePath a]) (content a)) ok.
Proof. intros (a & <- & Ha)%in_map_iff. now exists a. Qed.

(** Splits [H : In e new] along the shape of [new]; the cases that cannot be
    are closed, each one left has [H] as an equation. *)
Ltac in_cases H Hp :=
  repeat (rewrite in_app_iff in H || cbn [In] in H);
  repeat match type of H with
    | _ \/ _ => destruct H as [H|H]
    | False => contradiction
    | In _ (map (wrote _ _) _) => apply in_wrote in H as (?b & ?Hb & H)
    | In _ _ => exfalso; apply (not_in_probes _ _ Hp) in H; [exact H | reflexivity]
    | _ = _ => discriminate H
    end.

Lemma written_scaffolded dir probes (l : list Artifact) (rest : Trace) mk :
  forallb isProbe probes = true ->
  written (Sys (MkdirSync dir true) mk :: probes ++ map (wrote dir true) l ++ rest)
  = map (emit dir) l ++ written rest.
Proof.
  intros Hp. change (?x :: ?l) with ([x] ++ l).
  now rewrite !written_app, (written_probes _ Hp), written_wrote.
Qed.

(** The files written are a prefix of the artifact sequence, all of it once
    the script reports the project as created. *)
Lemma Scaffolded_written dir r res new :
  Scaffolded dir r res new ->
  exists done todo,
    ManifestBuilder r = done ++ todo
    /\ written new = map (emit dir) done
    /\ (res = Ret tt \/ In (ConsoleLog (Created (projectName r))) new -> todo = []).
Proof.
  destruct 1 as [|pm probes done a todo HD HM|pm probes HD|pm probes HD];
    try (apply Detected_probes in HD as [_ Hp]).
  - exists [], (ManifestBuilder r). repeat split.
    intros [|Hin]; [discriminate | in_cases Hin I].
  - exists done, (a :: todo). split; [exact HM|]. split.
    + rewrite (written_scaffolded _ _ _ _ _ Hp). apply app_nil_r.
    + intros [|Hin]; [discriminate | in_cases Hin Hp].
  - exists (ManifestBuilder r), []. split; [now rewrite app_nil_r|]. split; [|reflexivity].
    rewrite (written_scaffolded _ _ _ _ _ Hp). apply app_nil_r.
  - exists (ManifestBuilder r), []. split; [now rewrite app_nil_r|]. split; [|reflexivity].
    rewrite (written_scaffolded _ _ _ _ _ Hp). apply app_nil_r.
Qed.

(** Every [writeFileSync] of the script, successful or not, is for an
    artifact of the sequence. *)
Lemma Scaffolded_write_calls dir r res new path data ok :
  Scaffolded dir r res new ->
  In (Sys (WriteFileSync path data) ok) new ->
  exists a,
    In a (ManifestBuilder r) /\ path = Path.join [dir; relativePath a] /\ data = content a.
Proof.
  destruct 1 as [|pm probes done a todo HD HM|pm probes HD|pm probes HD];
    try (apply Detected_probes in HD as [_ Hp]); intros Hin.
  - in_cases Hin I.
  - in_cases Hin Hp.
    + injection Hin as -> -> _. exists b. rewrite HM, in_app_iff. auto.
    + injection Hin as <- <- _. exists a. rewrite HM, in_app_iff. cbn. auto.
  - in_cases Hin Hp. injection Hin as -> -> _. now exists b.
  - in_cases Hin Hp. injection Hin as -> -> _. now exists b.
Qed.

(** A subprocess with a working directory is the install command, run in
    the project directory after every artifact was written; its outcome
    decides how the script ends. *)
Lemma Scaffolded_install dir r res new cmd d io ok :
  Scaffolded dir r res new ->
  In (Sys (ExecSync cmd (Some d) io) ok) new ->
  exists pm,
    In pm (candidates ++ [fallback])
    /\ cmd = pm +:+ " install" /\ d = dir /\ io = Inherit
    /\ res = (if ok then Ret tt else Throw)
    /\ written new = map (emit dir) (ManifestBuilder r)
    /\ (ok = false -> exists before, new = before ++ [install pm dir false]).
Proof.
  intros HS Hin.
  destruct HS as [|pm probes done' a todo' HD _|pm probes HD|pm probes HD];
    try (pose proof (Detected_probes _ _ HD) as [Hpm Hp]).
  - in_cases Hin I.
  - in_cases Hin Hp.
  - pose proof (written_scaffolded dir probes (ManifestBuilder r)
                  [ConsoleLog (Created (projectName r)); ConsoleLog (Installing pm);
                   install pm dir false] true Hp) as Hw.
    cbn in Hw. rewrite app_nil_r in Hw.
    in_cases Hin Hp. injection Hin as <- <- <- <-. exists pm. repeat split; auto.
    intros _. exists (Sys (MkdirSync dir true) true :: probes
                        ++ map (wrote dir true) (ManifestBuilder r)
                        ++ [ConsoleLog (Created (projectName r)); ConsoleLog (Installing pm)]).
    cbn [app]. now rewrite <- !app_assoc.
  - pose proof (written_scaffolded dir probes (ManifestBuilder r)
                  [ConsoleLog (Created (projectName r)); ConsoleLog (Installing pm);
                   install pm dir true;
                   ConsoleLog NextSteps; ConsoleLog (ChangeDir (projectName r));
                   ConsoleLog (RunDev pm)] true Hp) as Hw.
    cbn in Hw. rewrite app_nil_r in Hw.
    in_cases Hin Hp. injection Hin as <- <- <- <-. exists pm.
    repeat split; auto. discriminate.
Qed.

Lemma fsAfter_app disk (t1 t2 : Trace) : fsAfter disk (t1 ++ t2) = fsAfter (fsAfter disk t1) t2.
Proof. apply fold_left_app. Qed.

(** A trace without file-system calls leaves the disk as it was. *)
Lemma fsAfter_untouched (t : Trace) disk :
  forallb (fun e => negb (touchesFileSystem e)) t = true -> fsAfter disk t = disk.
Proof.
  induction t as [|e t IH]; [reflexivity|]. cbn [forallb].
  intros [He Ht]%andb_prop. unfold fsAfter in *. cbn [fold_left].
  destruct e as [[| |] ?| | |]; try discriminate He; now apply IH.
Qed.

(** * The claims *)

(** ** Package manager detection *)

(** C5. Whatever the outcomes of the version probes of the prioritized
    candidates (pnpm, yarn, bun, in this order), [detectPackageManager]
    returns the first candidate whose probe succeeds, probes nothing after
    the first success, and returns npm when the three probes fail. *)
Theorem detectPackageManager_priority
    (host : Trace -> Call -> bool) (outcome : string -> bool) (t : Trace) :
  (forall t' c, In c candidates ->
     host t' (ExecSync (c +:+ " --version") None Ignore) = outcome c) ->
  exists pm tried untried,
    detectPackageManager host t = (Ret pm, t ++ map (fun c => probe c (outcome c)) tried)
    /\ candidates = tried ++ untried
    /\ match List.find outcome candidates with
       | Some c =>
           pm = c /\ outcome c = true
           /\ exists failed, tried = failed ++ [c]
                             /\ Forall (fun c' => outcome c' = false) failed
       | None => pm = fallback /\ tried = candidates
       end.
Proof.
  intros H. unfold detectPackageManager.
  rewrite bind_run, (has_run host "pnpm"). rewrite H by (cbn; auto).
  destruct (outcome "pnpm") eqn:E1.
  { exists "pnpm", ["pnpm"], ["yarn"; "bun"].
    cbn [List.find candidates map]. rewrite E1.
    do 3 (split; [reflexivity|]). split; [assumption|]. exists []. now split. }
  rewrite bind_run, (has_run host "yarn"). rewrite H by (cbn; auto).
  destruct (outcome "yarn") eqn:E2.
  { exists "yarn", ["pnpm"; "yarn"], ["bun"].
    cbn [List.find candidates map]. rewrite E1, E2, <- app_assoc.
    do 3 (split; [reflexivity|]). split; [assumption|]. exists ["pnpm"]. split; [reflexivity | auto]. }
  rewrite bind_run, (has_run host "bun"). rewrite H by (cbn; auto).
  destruct (outcome "bun") eqn:E3.
  { exists "bun", ["pnpm"; "yarn"; "bun"], [].
    cbn [List.find candidates map]. rewrite E1, E2, E3, <- !app_assoc.
    do 3 (split; [reflexivity|]). split; [assumption|]. exists ["pnpm"; "yarn"]. split; [reflexivity | auto]. }
  exists "npm", ["pnpm"; "yarn"; "bun"], [].
  cbn [List.find candidates map]. rewrite E1, E2, E3, <- !app_assoc.
  now repeat split.
Qed.

(** On a host with none of the candidates, the three probes fail and npm is
    selected. *)
Lemma detectPackageManager_priority_witness :
  exists pm tried untried,
    detectPackageManager onlyNpm []
    = (Ret pm, [] ++ map (fun c => probe c false) tried)
    /\ candidates = tried ++ untried
    /\ pm = fallback /\ tried = candidates.
Proof.
  apply (detectPackageManager_priority onlyNpm (fun _ => false) []).
  intros t' c Hc. cbn in Hc. destruct Hc as [<-|[<-|[<-|[]]]]; reflexivity.
Defined.

(** ** The version check *)

(** C7. [versionExists] issues exactly one registry query, never throws,
    and returns [true] when the query succeeds and [false] when it fails,
    whatever the reason of the failure. *)
Theorem versionExists_fail_closed
    (host : Trace -> Call -> bool) (pkg version : string) (t : Trace) :
  let query :=
    ExecSync ("npm view " +:+ pkg +:+ "@" +:+ version +:+ " version") None Ignore in
  exists found : bool,
    versionExists host pkg version t = (Ret found, t ++ [Sys query found])
    /\ found = host t query
    /\ (host t query = false -> found = false).
Proof.
  cbv zeta. eexists. split; [apply versionExists_run|]. auto.
Qed.

(** ** Cancelling *)

Lemma textPrompt_cancelled n rest t :
  textPrompt "projectName" EmptyString validateProjectName
    (repeat (Submit EmptyString) n ++ Cancel :: rest) t
  = (Exit 1,
     t ++ repeat (Reject "projectName" "Project name is required") n
       ++ [ConsoleLog Cancelled]).
Proof.
  revert t. induction n as [|n IH]; intros t; [reflexivity|].
  cbn [repeat app textPrompt Str.isEmpty].
  rewrite bind_run. unfold validateProjectName at 1, ret at 1.
  cbn [Str.isEmpty]. cbv beta iota.
  rewrite bind_run. unfold tell at 1. cbv beta iota.
  rewrite IH, <- app_assoc. reflexivity.
Qed.

(** C6. When the operator cancels at the first prompt (after any number of
    rejected empty submissions), the process exits with code 1; the trace
    holds the banner, the question, the rejections and the cancellation
    message, and no system call at all: no directory is created, no file
    written, no later stage run, and the disk is as it was. *)
Theorem cancel_at_first_prompt
    (process_cwd : string) (host : Trace -> Call -> bool)
    (n : nat) (rest : list Action) (disk : FS) :
  let keys := repeat (Submit EmptyString) n ++ Cancel :: rest in
  let res := fst (run process_cwd host keys) in
  let t := snd (run process_cwd host keys) in
  exitCode res = Some 1
  /\ t = ConsoleLog Banner :: Ask "projectName"
           :: repeat (Reject "projectName" "Project name is required") n
           ++ [ConsoleLog Cancelled]
  /\ (forall c ok, ~ In (Sys c ok) t)
  /\ fsAfter disk t = disk.
Proof.
  cbv zeta.
  assert (run process_cwd host (repeat (Submit EmptyString) n ++ Cancel :: rest)
          = (Exit 1,
             ConsoleLog Banner :: Ask "projectName"
               :: repeat (Reject "projectName" "Project name is required") n
               ++ [ConsoleLog Cancelled])) as ->.
  { unfold run, main.
    rewrite bind_run. unfold console_log at 1, tell at 1. cbv beta iota.
    rewrite bind_run. unfold prompts.
    rewrite bind_run. unfold tell at 1. cbv beta iota.
    rewrite bind_run, textPrompt_cancelled. reflexivity. }
  cbn [fst snd].
  split; [reflexivity|]. split; [reflexivity|].
  assert (forallb (fun e => negb (touchesFileSystem e))
            (repeat (Reject "projectName" "Project name is required") n
               ++ [ConsoleLog Cancelled]) = true) as Hq.
  { rewrite forallb_app. induction n; cbn; auto. }
  split.
  - intros c ok [|[|Hin]]; try discriminate.
    apply in_app_iff in Hin as [Hin|[|[]]]; [|discriminate].
    apply repeat_spec in Hin. discriminate.
  - apply fsAfter_untouched. cbn [forallb touchesFileSystem negb andb]. exact Hq.
Qed.

(** ** The trace carries the host's answers *)

Lemma hostAnswers_app host t n1 n2 :
  hostAnswers host t (n1 ++ n2) <-> hostAnswers host t n1 /\ hostAnswers host (t ++ n1) n2.
Proof.
  revert t. induction n1 as [|e n1 IH]; intros t; cbn [app hostAnswers].
  - rewrite app_nil_r. tauto.
  - rewrite IH, <- app_assoc. cbn [app]. tauto.
Qed.

Lemma hostAnswers_in host t new c ok :
  hostAnswers host t new -> In (Sys c ok) new -> exists t', host t' c = ok.
Proof.
  revert t. induction new as [|e new IH]; intros t H Hin; [contradiction|].
  destruct H as [He Hrest]. destruct Hin as [->|Hin]; [now exists t|].
  exact (IH _ Hrest Hin).
Qed.

Lemma faithful_ret host {A} (a : A) : Faithful host (ret a).
Proof. intros t. exists []. now rewrite app_nil_r. Qed.

Lemma faithful_stop host {A} (r : Res A) : Faithful host (fun t => (r, t)).
Proof. intros t. exists []. now rewrite app_nil_r. Qed.

Lemma faithful_tell host e :
  (forall c ok, e <> Sys c ok) -> Faithful host (tell e).
Proof.
  intros He t. exists [e]. split; [reflexivity|]. cbn.
  destruct e; [now contradiction (He c ok)| | |]; auto.
Qed.

Lemma faithful_syscall host c : Faithful host (syscall host c).
Proof.
  intros t. unfold syscall. destruct (host t c) eqn:E; eexists [_]; cbn; auto.
Qed.

Lemma faithful_bind host {A B} (m : M A) (k : A -> M B) :
  Faithful host m -> (forall a, Faithful host (k a)) -> Faithful host (bind m k).
Proof.
  intros Hm Hk t. rewrite bind_run.
  destruct (Hm t) as (n1 & E1 & H1). destruct (m t) as [r t']. cbn [snd] in E1. subst t'.
  destruct r as [a| | |]; try (now exists n1).
  destruct (Hk a (t ++ n1)) as (n2 & E2 & H2).
  exists (n1 ++ n2). rewrite E2, app_assoc. split; [reflexivity|].
  apply hostAnswers_app. now split.
Qed.

Lemma faithful_tryCatch host {A} (body handler : M A) :
  Faithful host body -> Faithful host handler -> Faithful host (tryCatch body handler).
Proof.
  intros Hb Hh t. unfold tryCatch.
  destruct (Hb t) as (n1 & E1 & H1). destruct (body t) as [r t']. cbn [snd] in E1. subst t'.
  destruct r as [a| | |]; try (now exists n1).
  destruct (Hh (t ++ n1)) as (n2 & E2 & H2).
  exists (n1 ++ n2). rewrite E2, app_assoc. split; [reflexivity|].
  apply hostAnswers_app. now split.
Qed.

Lemma faithful_console_log host m : Faithful host (console_log m).
Proof. apply faithful_tell. discriminate. Qed.

Lemma faithful_has host cmd : Faithful host (has host cmd).
Proof.
  apply faithful_tryCatch; [|apply faithful_ret].
  apply faithful_bind; [apply faithful_syscall | intros; apply faithful_ret].
Qed.

Lemma faithful_detect host : Faithful host (detectPackageManager host).
Proof.
  unfold detectPackageManager.
  repeat (apply faithful_bind; [apply faithful_has | intros []; [apply faithful_ret|]]).
  apply faithful_ret.
Qed.

Lemma faithful_versionExists host pkg version : Faithful host (versionExists host pkg version).
Proof.
  apply faithful_tryCatch; [|apply faithful_ret].
  apply faithful_bind; [apply faithful_syscall | intros; apply faithful_ret].
Qed.

Lemma faithful_onCancel host {A} : Faithful host (@onCancel A).
Proof.
  apply faithful_bind; [apply faithful_console_log | intros; apply faithful_stop].
Qed.

Lemma faithful_textPrompt host name initial validate keys :
  (forall value, Faithful host (validate value)) ->
  Faithful host (textPrompt name initial validate keys).
Proof.
  intros Hv. induction keys as [|[typed|] rest IH]; cbn [textPrompt].
  - apply faithful_stop.
  - apply faithful_bind; [apply Hv|]. intros [|error]; [apply faithful_ret|].
    apply faithful_bind; [apply faithful_tell; discriminate | intros; exact IH].
  - apply faithful_onCancel.
Qed.

Lemma faithful_confirmPrompt host initial keys : Faithful host (confirmPrompt initial keys).
Proof.
  induction keys as [|[typed|] rest IH]; cbn [confirmPrompt].
  - apply faithful_stop.
  - destruct (Str.isEmpty typed); [apply faithful_ret|].
    destruct (_ || _); [apply faithful_ret|].
    destruct (_ || _); [apply faithful_ret | exact IH].
  - apply faithful_onCancel.
Qed.

Lemma faithful_prompts host keys : Faithful host (prompts host keys).
Proof.
  unfold prompts.
  apply faithful_bind; [apply faithful_tell; discriminate | intros _].
  apply faithful_bind.
  { apply faithful_textPrompt. intros. apply faithful_ret. }
  intros a1. apply faithful_bind; [apply faithful_tell; discriminate | intros _].
  apply faithful_bind.
  { apply faithful_textPrompt. intros value. unfold validateTypescriptVersion.
    apply faithful_bind; [apply faithful_versionExists | intros; apply faithful_ret]. }
  intros a2. apply faithful_bind; [apply faithful_tell; discriminate | intros _].
  apply faithful_bind; [apply faithful_confirmPrompt | intros; apply faithful_ret].
Qed.

Lemma faithful_write host dir file data : Faithful host (write host dir file data).
Proof. apply faithful_syscall. Qed.

Lemma faithful_scaffold process_cwd host r : Faithful host (scaffold process_cwd host r).
Proof.
  unfold scaffold.
  apply faithful_bind; [apply faithful_syscall | intros _].
  apply faithful_bind; [apply faithful_detect | intros pm].
  do 2 (apply faithful_bind; [apply faithful_write | intros _]).
  apply faithful_bind;
    [destruct (useEslint r); [apply faithful_write | apply faithful_ret] | intros _].
  do 3 (apply faithful_bind; [apply faithful_write | intros _]).
  do 2 (apply faithful_bind; [apply faithful_console_log | intros _]).
  apply faithful_bind; [apply faithful_syscall | intros _].
  do 2 (apply faithful_bind; [apply faithful_console_log | intros _]).
  apply faithful_console_log.
Qed.

(** Every system call recorded in the trace of a run has the outcome the
    host gave it. *)
Lemma run_faithful process_cwd host keys :
  hostAnswers host [] (snd (run process_cwd host keys)).
Proof.
  assert (Faithful host (main process_cwd host keys)) as H.
  { unfold main. apply faithful_bind; [apply faithful_console_log | intros _].
    apply faithful_bind; [apply faithful_prompts | intros r]. apply faithful_scaffold. }
  destruct (H []) as (new & E & Hnew). unfold run. now rewrite E.
Qed.

Lemma run_answer process_cwd host keys c ok :
  In (Sys c ok) (snd (run process_cwd host keys)) -> exists t, host t c = ok.
Proof. apply hostAnswers_in with (t := []). apply run_faithful. Qed.

(** ** How the script goes on after the prompts *)

Lemma prompts_accepts host keys t r t' :
  prompts host keys t = (Ret r, t') ->
  projectName r <> EmptyString /\ inRegistry host (typescriptVersion r).
Proof.
  intros Hp. destruct (prompts_run host keys t) as (res & new & Hp' & _ & Hacc).
  rewrite Hp in Hp'. injection Hp' as <- _. exact Hacc.
Qed.

(** The outcome recorded for a call is the host's answer at that point. *)
Lemma hostAnswers_at host t before c ok after :
  hostAnswers host t (before ++ Sys c ok :: after) -> host (t ++ before) c = ok.
Proof. intros H. apply hostAnswers_app in H as [_ [H _]]. exact H. Qed.

Lemma hostAnswers_head host t c ok rest :
  hostAnswers host t (Sys c ok :: rest) -> host t c = ok.
Proof. now intros [H _]. Qed.

(** [scaffold] takes one of its four shapes, with the host's answers. *)
Lemma scaffold_answers process_cwd host r t :
  exists res new,
    scaffold process_cwd host r t = (res, t ++ new)
    /\ Scaffolded (projectDir process_cwd (projectName r)) r res new
    /\ hostAnswers host t new.
Proof.
  destruct (scaffold_run process_cwd host r t) as (res & new & E & HS).
  destruct (faithful_scaffold process_cwd host r t) as (new' & E' & Hnew).
  rewrite E in E'. cbn [snd] in E'. apply app_inv_head in E'. subst new'.
  now exists res, new.
Qed.

(** [scaffold] writes the artifacts in order; it stops before the last one
    only at a call the host refuses, with an exception. *)
Lemma scaffold_outcome process_cwd host r t :
  exists res new done todo,
    scaffold process_cwd host r t = (res, t ++ new)
    /\ ManifestBuilder r = done ++ todo
    /\ written new = map (emit (projectDir process_cwd (projectName r))) done
    /\ (todo = []
        \/ res = Throw
           /\ exists before c,
                new = before ++ [Sys c false] /\ host (t ++ before) c = false).
Proof.
  destruct (scaffold_answers process_cwd host r t) as (res & new & E & HS & Hnew).
  exists res, new.
  destruct HS as [|pm probes done a todo HD HM|pm probes HD|pm probes HD];
    try (destruct (Detected_probes _ _ HD) as [_ Hp]).
  - exists [], (ManifestBuilder r). do 3 (split; [reflexivity || exact E|]).
    right. split; [reflexivity|].
    exists [], (MkdirSync (projectDir process_cwd (projectName r)) true).
    split; [reflexivity|]. exact (hostAnswers_at _ _ [] _ _ [] Hnew).
  - exists done, (a :: todo). split; [exact E|]. split; [exact HM|]. split.
    + rewrite (written_scaffolded _ _ _ _ _ Hp). exact (app_nil_r _).
    + right. split; [reflexivity|].
      exists (Sys (MkdirSync (projectDir process_cwd (projectName r)) true) true
                :: probes ++ map (wrote (projectDir process_cwd (projectName r)) true) done).
      eexists. split; [cbn [app]; rewrite <- app_assoc; reflexivity|].
      apply (hostAnswers_at _ _ _ _ _ []). cbn [app]. rewrite <- app_assoc. exact Hnew.
  - exists (ManifestBuilder r), []. split; [exact E|]. split; [now rewrite app_nil_r|].
    split; [|now left].
    rewrite (written_scaffolded _ _ _ _ _ Hp). exact (app_nil_r _).
  - exists (ManifestBuilder r), []. split; [exact E|]. split; [now rewrite app_nil_r|].
    split; [|now left].
    rewrite (written_scaffolded _ _ _ _ _ Hp). exact (app_nil_r _).
Qed.

(** Once the prompts have returned, the run is [scaffold] on their answers. *)
Lemma run_after_prompts process_cwd host keys r asked :
  prompts host keys [ConsoleLog Banner] = (Ret r, asked) ->
  run process_cwd host keys = scaffold process_cwd host r asked.
Proof.
  intros Hp. unfold run, main. rewrite bind_run. unfold console_log at 1, tell at 1.
  cbv beta iota. rewrite bind_run. cbn [app]. now rewrite Hp.
Qed.

(** [scaffold] begins with [mkdirSync]; unless the host refuses it, the
    probes follow, and then the call that writes [package.json] with the
    text of the manifest built from the answers. *)
Lemma manifest_is_written_first process_cwd host r t :
  let dir := projectDir process_cwd (projectName r) in
  let manifest := package_json (projectName r) (typescriptVersion r) (useEslint r) in
  let call := WriteFileSync (Path.join [dir; "package.json"]) (stringify manifest) in
  exists mk later,
    snd (scaffold process_cwd host r t) = t ++ Sys (MkdirSync dir true) mk :: later
    /\ host t (MkdirSync dir true) = mk
    /\ if mk
       then exists pm probes ok rest,
              Detected pm probes
              /\ later = probes ++ Sys call ok :: rest
              /\ host (t ++ Sys (MkdirSync dir true) true :: probes) call = ok
              /\ (ok = false -> rest = [])
       else later = [].
Proof.
  cbv zeta.
  destruct (scaffold_answers process_cwd host r t) as (res & new & E & HS & Hnew).
  rewrite E. cbn [snd].
  set (dir := projectDir process_cwd (projectName r)) in *.
  assert (forall probes ok rest,
            hostAnswers host t (Sys (MkdirSync dir true) true :: probes ++ Sys
              (WriteFileSync (Path.join [dir; "package.json"])
                 (stringify (package_json (projectName r) (typescriptVersion r) (useEslint r))))
              ok :: rest) ->
            host (t ++ Sys (MkdirSync dir true) true :: probes)
              (WriteFileSync (Path.join [dir; "package.json"])
                 (stringify (package_json (projectName r) (typescriptVersion r) (useEslint r))))
            = ok) as Hat.
  { intros probes ok rest H.
    exact (hostAnswers_at host t (Sys (MkdirSync dir true) true :: probes) _ _ rest H). }
  destruct HS as [|pm probes done a todo HD HM|pm probes HD|pm probes HD].
  - exists false, []. split; [reflexivity|]. split; [|reflexivity].
    exact (hostAnswers_head _ _ _ _ _ Hnew).
  - exists true. eexists. split; [reflexivity|].
    split; [exact (hostAnswers_head _ _ _ _ _ Hnew)|].
    exists pm, probes.
    destruct done as [|a0 done]; cbn [app map] in HM |- *.
    + unfold ManifestBuilder in HM. cbn [app] in HM. injection HM as <- _.
      exists false, []. split; [exact HD|]. split; [reflexivity|].
      split; [|reflexivity]. apply (Hat _ _ []). exact Hnew.
    + unfold ManifestBuilder in HM. cbn [app] in HM. injection HM as <- _.
      exists true. eexists. split; [exact HD|]. split; [reflexivity|].
      split; [|discriminate]. eapply Hat. exact Hnew.
  - exists true. eexists. split; [reflexivity|].
    split; [exact (hostAnswers_head _ _ _ _ _ Hnew)|].
    exists pm, probes, true. eexists. split; [exact HD|]. split; [reflexivity|].
    split; [|discriminate]. eapply Hat. exact Hnew.
  - exists true. eexists. split; [reflexivity|].
    split; [exact (hostAnswers_head _ _ _ _ _ Hnew)|].
    exists pm, probes, true. eexists. split; [exact HD|]. split; [reflexivity|].
    split; [|discriminate]. eapply Hat. exact Hnew.
Qed.

(** ** The files of a run *)

(** What a whole run has written: nothing, or a prefix of the artifact
    sequence of the answers the prompts returned. *)
Lemma run_written process_cwd host keys :
  written (snd (run process_cwd host keys)) = []
  \/ exists r asked done todo,
       prompts host keys [ConsoleLog Banner] = (Ret r, ConsoleLog Banner :: asked)
       /\ projectName r <> EmptyString
       /\ inRegistry host (typescriptVersion r)
       /\ ManifestBuilder r = done ++ todo
       /\ written (snd (run process_cwd host keys))
          = map (emit (projectDir process_cwd (projectName r))) done.
Proof.
  pose proof (main_run process_cwd host keys) as H.
  destruct (run process_cwd host keys) as [res t]. cbn [snd].
  destruct H as [(asked & -> & Hasked & _)|(r & asked & new & Hp & Hasked & Hn & Hreg & -> & HS)].
  - left. change (?x :: ?l) with ([x] ++ l). now rewrite written_app, (written_asked _ Hasked).
  - right. destruct (Scaffolded_written _ _ _ _ HS) as (done & todo & HM & Hw & _).
    exists r, asked, done, todo. repeat split; auto.
    change (?x :: ?l) with ([x] ++ l).
    now rewrite !written_app, (written_asked _ Hasked), Hw.
Qed.

(** ** The manifest *)

(** C10. The answer of the version prompt is the value of the [typescript]
    entry of [devDependencies], as it is; every other entry is a caret
    range.  In every run, the first file written is the [package.json] built
    from the validated answers, whose [devDependencies] member is that
    object.  Once the prompts have returned their answers, the script makes
    the project directory and, unless the host refuses that, probes for a
    package manager and calls [writeFileSync] with the text of that very
    manifest: the version in it is the accepted one. *)
Theorem typescript_pinned_verbatim
    (process_cwd : string) (host : Trace -> Call -> bool) (keys : list Action) :
  (forall v e, get "typescript" (devDependencies v e) = Some (Str v))
  /\ (forall v e k x,
         In (k, x) (devDependencies v e) -> k <> "typescript" ->
         exists range, x = Str (String "^" range))
  /\ (forall name v e,
         get "devDependencies" (members (package_json name v e))
         = Some (Obj (devDependencies v e)))
  /\ (forall path data rest,
         written (snd (run process_cwd host keys)) = (path, data) :: rest ->
         exists r asked,
           prompts host keys [ConsoleLog Banner] = (Ret r, asked)
           /\ inRegistry host (typescriptVersion r)
           /\ path = Path.join [projectDir process_cwd (projectName r); "package.json"]
           /\ data = stringify (package_json (projectName r) (typescriptVersion r)
                                  (useEslint r)))
  /\ (forall r asked,
         prompts host keys [ConsoleLog Banner] = (Ret r, asked) ->
         let dir := projectDir process_cwd (projectName r) in
         let manifest :=
           package_json (projectName r) (typescriptVersion r) (useEslint r) in
         let call := WriteFileSync (Path.join [dir; "package.json"]) (stringify manifest) in
         inRegistry host (typescriptVersion r)
         /\ (exists block,
                get "devDependencies" (members manifest) = Some (Obj block)
                /\ get "typescript" block = Some (Str (typescriptVersion r)))
         /\ exists mk later,
              snd (run process_cwd host keys) = asked ++ Sys (MkdirSync dir true) mk :: later
              /\ host asked (MkdirSync dir true) = mk
              /\ if mk
                 then exists pm probes ok rest,
                        Detected pm probes
                        /\ later = probes ++ Sys call ok :: rest
                        /\ host (asked ++ Sys (MkdirSync dir true) true :: probes) call = ok
                        /\ (ok = false -> rest = [])
                 else later = []).
Proof.
  split; [intros v []; reflexivity|].
  split.
  { intros v e k x Hin Hk.
    destruct e; cbn in Hin;
      repeat (destruct Hin as [E|Hin]; [injection E as <- <-; try contradiction; eauto|]);
      contradiction. }
  split; [reflexivity|].
  split.
  { intros path data rest Hw.
    destruct (run_written process_cwd host keys)
      as [Hnil|(r & asked & done & todo & Hp & _ & Hreg & HM & Hw')].
    - rewrite Hnil in Hw. discriminate.
    - rewrite Hw' in Hw. destruct done as [|a done]; [discriminate|].
      unfold ManifestBuilder in HM. cbn [app] in HM. injection HM as <- _.
      injection Hw as <- <- _. now exists r, (ConsoleLog Banner :: asked). }
  intros r asked Hp. cbv zeta.
  split; [exact (proj2 (prompts_accepts _ _ _ _ _ Hp))|].
  split.
  { exists (devDependencies (typescriptVersion r) (useEslint r)).
    split; [reflexivity|]. now destruct (useEslint r). }
  rewrite (run_after_prompts process_cwd host keys r asked Hp).
  exact (manifest_is_written_first process_cwd host r asked).
Qed.

(** In [/home/dev], on a host where everything succeeds, the operator asks
    for typescript 4.9.5: the first file written is the manifest, and it
    pins typescript to 4.9.5. *)
Lemma typescript_pinned_verbatim_witness :
  let keys := [Submit "my-app"; Submit "4.9.5"; Submit "n"] in
  let manifest := package_json "my-app" "4.9.5" false in
  prompts allOk keys [ConsoleLog Banner]
  = (Ret {| projectName := "my-app"; typescriptVersion := "4.9.5"; useEslint := false |},
     [ConsoleLog Banner; Ask "projectName"; Ask "typescriptVersion";
      Sys (ExecSync "npm view typescript@4.9.5 version" None Ignore) true;
      Ask "useEslint"])
  /\ hd_error (written (snd (run "/home/dev" allOk keys)))
     = Some ("/home/dev/my-app/package.json", stringify manifest)
  /\ exists block,
       get "devDependencies" (members manifest) = Some (Obj block)
       /\ get "typescript" block = Some (Str "4.9.5").
Proof.
  cbv zeta.
  assert (prompts allOk [Submit "my-app"; Submit "4.9.5"; Submit "n"] [ConsoleLog Banner]
          = (Ret {| projectName := "my-app"; typescriptVersion := "4.9.5";
                    useEslint := false |},
             [ConsoleLog Banner; Ask "projectName"; Ask "typescriptVersion";
              Sys (ExecSync "npm view typescript@4.9.5 version" None Ignore) true;
              Ask "useEslint"])) as Hp by reflexivity.
  split; [exact Hp|].
  destruct (typescript_pinned_verbatim "/home/dev" allOk
              [Submit "my-app"; Submit "4.9.5"; Submit "n"]) as (_ & _ & _ & _ & H).
  destruct (H _ _ Hp) as (_ & Hblock & mk & later & Hrun & Hmk & Hlater).
  split; [|exact Hblock].
  unfold allOk in Hmk. subst mk.
  destruct Hlater as (pm & probes & ok & rest & HD & -> & Hok & _).
  unfold allOk in Hok. subst ok.
  rewrite Hrun, written_app.
  destruct (Detected_probes _ _ HD) as [_ Hprobes].
  epose proof (written_scaffolded (projectDir "/home/dev" "my-app") probes []
                 (_ :: rest) true Hprobes) as Hw.
  cbn [map app] in Hw. cbn [projectName typescriptVersion useEslint].
  rewrite Hw. reflexivity.
Defined.

(** ** The optional feature *)

Lemma scaffold_appends process_cwd host r t :
  exists new,
    snd (scaffold process_cwd host r t) = t ++ new
    /\ Scaffolded (projectDir process_cwd (projectName r)) r
         (fst (scaffold process_cwd host r t)) new.
Proof.
  destruct (scaffold_run process_cwd host r t) as (res & new & -> & HS).
  now exists new.
Qed.

(** C3. Without the optional feature the script makes no attempt to write
    [eslint.config.mjs]; the files it writes are a prefix of the five other
    artifacts; the [scripts] object has no [lint] member and
    [devDependencies] none of the three optional ones.  These two objects
    are the [scripts] and [devDependencies] members of the manifest, whose
    text is the content of the first artifact, [package.json].  The script
    writes the five artifacts in order and stops before the last one only
    at a call the host refuses. *)
Theorem no_lint_without_feature
    (process_cwd : string) (host : Trace -> Call -> bool)
    (name version : string) (t : Trace) :
  let r := {| projectName := name; typescriptVersion := version; useEslint := false |} in
  let dir := projectDir process_cwd name in
  let manifest := package_json name version false in
  keys (scripts false) = ["build"; "dev"; "test"]
  /\ get "lint" (scripts false) = None
  /\ keys (devDependencies version false)
     = ["@types/express"; "@types/node"; "ts-node"; "ts-node-dev"; "typescript"]
  /\ (forall k, In k optionalDevDependencies ->
        get k (devDependencies version false) = None)
  /\ map relativePath (ManifestBuilder r)
     = ["package.json"; "tsconfig.json"; "index.ts"; "server.ts"; "routes.ts"]
  /\ (exists block,
         get "scripts" (members manifest) = Some (Obj block)
         /\ keys block = ["build"; "dev"; "test"]
         /\ get "lint" block = None)
  /\ (exists block,
         get "devDependencies" (members manifest) = Some (Obj block)
         /\ keys block
            = ["@types/express"; "@types/node"; "ts-node"; "ts-node-dev"; "typescript"]
         /\ forall k, In k optionalDevDependencies -> get k block = None)
  /\ ManifestBuilder r
     = [ {| relativePath := "package.json"; content := stringify manifest |};
         {| relativePath := "tsconfig.json"; content := stringify tsconfig_json |};
         {| relativePath := "index.ts"; content := index_ts |};
         {| relativePath := "server.ts"; content := server_ts |};
         {| relativePath := "routes.ts"; content := routes_ts |} ]
  /\ exists new,
       snd (scaffold process_cwd host r t) = t ++ new
       /\ (forall data ok,
              ~ In (Sys (WriteFileSync (Path.join [dir; "eslint.config.mjs"]) data) ok) new)
       /\ exists done todo,
            ManifestBuilder r = done ++ todo
            /\ written new = map (emit dir) done
            /\ (todo = []
                \/ fst (scaffold process_cwd host r t) = Throw
                   /\ exists before c,
                        new = before ++ [Sys c false] /\ host (t ++ before) c = false).
Proof.
  cbv zeta. do 3 (split; [reflexivity|]).
  split; [intros k [<-|[<-|[<-|[]]]]; reflexivity|].
  split; [reflexivity|].
  split; [exists (scripts false); now repeat split|].
  split.
  { exists (devDependencies version false). do 2 (split; [reflexivity|]).
    intros k [<-|[<-|[<-|[]]]]; reflexivity. }
  split; [reflexivity|].
  destruct (scaffold_outcome process_cwd host
              {| projectName := name; typescriptVersion := version; useEslint := false |} t)
    as (res & new & done & todo & E & HM & Hw & Hstop).
  destruct (scaffold_run process_cwd host
              {| projectName := name; typescriptVersion := version; useEslint := false |} t)
    as (res' & new' & E' & HS).
  rewrite E in E'. injection E' as <- E'. apply app_inv_head in E'. subst new'.
  rewrite E. cbn [fst snd projectName] in *.
  exists new. split; [reflexivity|]. split.
  - intros data ok Hin.
    destruct (Scaffolded_write_calls _ _ _ _ _ _ _ HS Hin) as (a & Ha & Hpath & _).
    cbn in Ha.
    destruct Ha as [<-|[<-|[<-|[<-|[<-|[]]]]]];
      apply PathFacts.join_file_inj in Hpath; try reflexivity; discriminate Hpath.
  - now exists done, todo.
Qed.

(** In [/home/dev], on a host where everything succeeds, the five files are
    written and none of them is the lint configuration. *)
Lemma no_lint_without_feature_witness :
  let r := {| projectName := "my-app"; typescriptVersion := "5.2.2"; useEslint := false |} in
  map fst (written (snd (scaffold "/home/dev" allOk r [])))
  = ["/home/dev/my-app/package.json"; "/home/dev/my-app/tsconfig.json";
     "/home/dev/my-app/index.ts"; "/home/dev/my-app/server.ts";
     "/home/dev/my-app/routes.ts"]
  /\ In ("/home/dev/my-app/package.json", stringify (package_json "my-app" "5.2.2" false))
       (written (snd (scaffold "/home/dev" allOk r []))).
Proof.
  cbv zeta.
  destruct (no_lint_without_feature "/home/dev" allOk "my-app" "5.2.2" [])
    as (_ & _ & _ & _ & _ & _ & _ & HM & new & Hnew & _ & done & todo & HM' & Hw & Hstop).
  rewrite Hnew. cbn [app]. rewrite Hw.
  destruct Hstop as [->|(_ & before & c & _ & Hno)]; [|discriminate Hno].
  rewrite app_nil_r in HM'. subst done. rewrite HM.
  split; [reflexivity | now left].
Defined.

(** C4. With the optional feature the [scripts] object has its four fixed
    members, [devDependencies] is the base block followed by the optional
    block with its three fixed members, and the artifact sequence has the
    six fixed files, the lint configuration among them; once the script
    reports the project as created, all six were written.  The flag gates the
    lint script, each optional dependency and the lint configuration alike:
    each is present exactly when the flag is set.  The two objects are the
    [scripts] and [devDependencies] members of the manifest, whose text is
    the content of the first artifact, [package.json]; the same holds of
    the manifest for either value of the flag.  The script writes the six
    artifacts in order and stops before the last one only at a call the host
    refuses. *)
Theorem lint_feature_wholesale
    (process_cwd : string) (host : Trace -> Call -> bool)
    (name version : string) (t : Trace) :
  let r := {| projectName := name; typescriptVersion := version; useEslint := true |} in
  let dir := projectDir process_cwd name in
  let manifest := package_json name version true in
  keys (scripts true) = ["build"; "dev"; "lint"; "test"]
  /\ devDependencies version true
     = devDependencies version false
       ++ [ ("eslint", Str "^9.29.0");
            ("@typescript-eslint/parser", Str "^8.34.1");
            ("@typescript-eslint/eslint-plugin", Str "^8.34.1") ]
  /\ keys (devDependencies version true)
     = keys (devDependencies version false) ++ optionalDevDependencies
  /\ map relativePath (ManifestBuilder r)
     = ["package.json"; "tsconfig.json"; "eslint.config.mjs";
        "index.ts"; "server.ts"; "routes.ts"]
  /\ In lintArtifact (ManifestBuilder r)
  /\ (forall e : bool,
         (In "lint" (keys (scripts e)) <-> e = true)
         /\ (forall k, In k optionalDevDependencies ->
               (In k (keys (devDependencies version e)) <-> e = true))
         /\ (In "eslint.config.mjs"
               (map relativePath
                  (ManifestBuilder {| projectName := name; typescriptVersion := version;
                                      useEslint := e |}))
             <-> e = true))
  /\ (exists block,
         get "scripts" (members manifest) = Some (Obj block)
         /\ keys block = ["build"; "dev"; "lint"; "test"]
         /\ get "lint" block = Some (Str "eslint . --ext .ts"))
  /\ (exists block,
         get "devDependencies" (members manifest) = Some (Obj block)
         /\ keys block
            = ["@types/express"; "@types/node"; "ts-node"; "ts-node-dev"; "typescript";
               "eslint"; "@typescript-eslint/parser"; "@typescript-eslint/eslint-plugin"]
         /\ get "eslint" block = Some (Str "^9.29.0")
         /\ get "@typescript-eslint/parser" block = Some (Str "^8.34.1")
         /\ get "@typescript-eslint/eslint-plugin" block = Some (Str "^8.34.1"))
  /\ (forall e : bool,
         exists scriptsBlock devBlock,
           get "scripts" (members (package_json name version e)) = Some (Obj scriptsBlock)
           /\ get "devDependencies" (members (package_json name version e))
              = Some (Obj devBlock)
           /\ (In "lint" (keys scriptsBlock) <-> e = true)
           /\ (forall k, In k optionalDevDependencies ->
                 (In k (keys devBlock) <-> e = true)))
  /\ ManifestBuilder r
     = [ {| relativePath := "package.json"; content := stringify manifest |};
         {| relativePath := "tsconfig.json"; content := stringify tsconfig_json |};
         {| relativePath := "eslint.config.mjs"; content := Str.trim eslint_config_mjs |};
         {| relativePath := "index.ts"; content := index_ts |};
         {| relativePath := "server.ts"; content := server_ts |};
         {| relativePath := "routes.ts"; content := routes_ts |} ]
  /\ exists new,
       snd (scaffold process_cwd host r t) = t ++ new
       /\ (fst (scaffold process_cwd host r t) = Ret tt
           \/ In (ConsoleLog (Created name)) new ->
           written new = map (emit dir) (ManifestBuilder r))
       /\ exists done todo,
            ManifestBuilder r = done ++ todo
            /\ written new = map (emit dir) done
            /\ (todo = []
                \/ fst (scaffold process_cwd host r t) = Throw
                   /\ exists before c,
                        new = before ++ [Sys c false] /\ host (t ++ before) c = false).
Proof.
  cbv zeta. do 4 (split; [reflexivity|]).
  split; [cbn; auto|].
  assert (forall e : bool,
            (In "lint" (keys (scripts e)) <-> e = true)
            /\ (forall k, In k optionalDevDependencies ->
                  (In k (keys (devDependencies version e)) <-> e = true))) as Hgate.
  { intros e. split.
    - destruct e; cbn; split; intuition discriminate.
    - intros k Hk. cbn in Hk.
      destruct e; cbn; split; intuition (subst; auto 10; discriminate). }
  split.
  { intros e. split; [apply Hgate|]. split; [apply Hgate|].
    destruct e; cbn; split; intuition discriminate. }
  split; [exists (scripts true); now repeat split|].
  split; [exists (devDependencies version true); now repeat split|].
  split.
  { intros e. exists (scripts e), (devDependencies version e).
    do 2 (split; [reflexivity|]). apply Hgate. }
  split; [reflexivity|].
  destruct (scaffold_outcome process_cwd host
              {| projectName := name; typescriptVersion := version; useEslint := true |} t)
    as (res & new & done & todo & E & HM & Hw & Hstop).
  destruct (scaffold_run process_cwd host
              {| projectName := name; typescriptVersion := version; useEslint := true |} t)
    as (res' & new' & E' & HS).
  rewrite E in E'. injection E' as <- E'. apply app_inv_head in E'. subst new'.
  rewrite E. cbn [fst snd projectName] in *.
  exists new. split; [reflexivity|]. split.
  - intros Hdone.
    destruct (Scaffolded_written _ _ _ _ HS) as (done' & todo' & HM' & Hw' & Hall).
    rewrite Hw', HM', (Hall Hdone). now rewrite app_nil_r.
  - now exists done, todo.
Qed.

(** In [/home/dev], on a host where everything succeeds, the six files are
    written, the lint configuration and the manifest among them. *)
Lemma lint_feature_wholesale_witness :
  let r := {| projectName := "my-app"; typescriptVersion := "5.2.2"; useEslint := true |} in
  map fst (written (snd (scaffold "/home/dev" allOk r [])))
  = ["/home/dev/my-app/package.json"; "/home/dev/my-app/tsconfig.json";
     "/home/dev/my-app/eslint.config.mjs"; "/home/dev/my-app/index.ts";
     "/home/dev/my-app/server.ts"; "/home/dev/my-app/routes.ts"]
  /\ In ("/home/dev/my-app/package.json", stringify (package_json "my-app" "5.2.2" true))
       (written (snd (scaffold "/home/dev" allOk r [])))
  /\ In ("/home/dev/my-app/eslint.config.mjs", Str.trim eslint_config_mjs)
       (written (snd (scaffold "/home/dev" allOk r []))).
Proof.
  cbv zeta.
  destruct (lint_feature_wholesale "/home/dev" allOk "my-app" "5.2.2" [])
    as (_ & _ & _ & _ & _ & _ & _ & _ & _ & HM & new & Hnew & _
        & done & todo & HM' & Hw & Hstop).
  rewrite Hnew. cbn [app]. rewrite Hw.
  destruct Hstop as [->|(_ & before & c & _ & Hno)]; [|discriminate Hno].
  rewrite app_nil_r in HM'. subst done. rewrite HM.
  split; [reflexivity|]. split; [now left | right; right; now left].
Defined.

(** ** Determinism *)

(** C8. Two executions of the script with the same answers, on any two
    hosts, in any two working directories and after any two histories, write
    prefixes of one and the same artifact sequence, each file under its own
    project directory; an execution that ends normally or reports the
    project as created has written the whole sequence.  The sequence is
    [ManifestBuilder] of the answers: it depends on nothing else. *)
Theorem artifacts_deterministic
    (r : Response)
    (cwd1 : string) (host1 : Trace -> Call -> bool) (t1 : Trace)
    (cwd2 : string) (host2 : Trace -> Call -> bool) (t2 : Trace) :
  let run1 := scaffold cwd1 host1 r t1 in
  let run2 := scaffold cwd2 host2 r t2 in
  exists new1 new2 n1 n2,
    snd run1 = t1 ++ new1
    /\ snd run2 = t2 ++ new2
    /\ written new1
       = map (emit (projectDir cwd1 (projectName r))) (firstn n1 (ManifestBuilder r))
    /\ written new2
       = map (emit (projectDir cwd2 (projectName r))) (firstn n2 (ManifestBuilder r))
    /\ (fst run1 = Ret tt \/ In (ConsoleLog (Created (projectName r))) new1 ->
        n1 = length (ManifestBuilder r))
    /\ (fst run2 = Ret tt \/ In (ConsoleLog (Created (projectName r))) new2 ->
        n2 = length (ManifestBuilder r))
    /\ (n1 = n2 -> map snd (written new1) = map snd (written new2)).
Proof.
  cbv zeta.
  destruct (scaffold_appends cwd1 host1 r t1) as (new1 & H1 & HS1).
  destruct (scaffold_appends cwd2 host2 r t2) as (new2 & H2 & HS2).
  destruct (Scaffolded_written _ _ _ _ HS1) as (done1 & todo1 & HM1 & Hw1 & Hall1).
  destruct (Scaffolded_written _ _ _ _ HS2) as (done2 & todo2 & HM2 & Hw2 & Hall2).
  assert (forall done todo, ManifestBuilder r = done ++ todo ->
            firstn (length done) (ManifestBuilder r) = done) as Hfirst.
  { intros done todo ->. rewrite firstn_app, Nat.sub_diag, firstn_all. cbn.
    apply app_nil_r. }
  exists new1, new2, (length done1), (length done2).
  rewrite (Hfirst _ _ HM1), (Hfirst _ _ HM2).
  do 4 (split; [assumption|]).
  split; [|split].
  - intros H. rewrite HM1, (Hall1 H). now rewrite app_nil_r.
  - intros H. rewrite HM2, (Hall2 H). now rewrite app_nil_r.
  - intros Hlen. rewrite Hw1, Hw2, !map_map. cbn [emit snd].
    assert (done1 = done2) as ->; [|reflexivity].
    rewrite <- (Hfirst _ _ HM1), <- (Hfirst _ _ HM2). now rewrite Hlen.
Qed.

(** ** The project name *)


(** Decides a closed statement about a concrete disk by evaluation. *)
Ltac by_computation :=
  match goal with
  | |- ?P => apply (bool_decide_unpack P); vm_compute; exact I
  end.


(** ** The install command *)

(** When the directory can be made and every file written, the script gets
    as far as the install command, whose outcome decides how it ends. *)
Lemma scaffold_on_working_disk process_cwd host r t :
  (forall t' path, host t' (MkdirSync path true) = true) ->
  (forall t' path data, host t' (WriteFileSync path data) = true) ->
  let dir := projectDir process_cwd (projectName r) in
  exists pm probes (ok : bool),
    Detected pm probes
    /\ scaffold process_cwd host r t
       = (if ok then Ret tt else Throw,
          t ++ Sys (MkdirSync dir true) true :: probes
            ++ map (wrote dir true) (ManifestBuilder r)
            ++ [ConsoleLog (Created (projectName r)); ConsoleLog (Installing pm);
                install pm dir ok]
            ++ (if ok
                then [ConsoleLog NextSteps; ConsoleLog (ChangeDir (projectName r));
                      ConsoleLog (RunDev pm)]
                else [])).
Proof.
  intros Hmkdir Hwrite. cbv zeta.
  destruct r as [name v e]. unfold scaffold.
  cbn [projectName typescriptVersion useEslint].
  set (dir := projectDir process_cwd name).
  rewrite bind_run. unfold mkdirSync, syscall. rewrite Hmkdir. cbv beta iota.
  rewrite bind_run.
  destruct (detect_run host (t ++ [Sys (MkdirSync dir true) true])) as (pm & ps & -> & HD).
  exists pm, ps.
  assert (forall file data (k : M unit) t',
             bind (write host dir file data) (fun _ => k) t'
             = k (t' ++ [Sys (WriteFileSync (Path.join [dir; file]) data) true])) as Hstep.
  { intros file data k t'. rewrite bind_run, write_run, Hwrite. reflexivity. }
  destruct e.
  - rewrite !Hstep.
    rewrite bind_run. unfold console_log at 1, tell at 1. cbv beta iota.
    rewrite bind_run. unfold console_log at 1, tell at 1. cbv beta iota.
    rewrite bind_run. unfold execSync, syscall.
    match goal with |- context [host ?t ?c] => destruct (host t c) end; cbv beta iota.
    + exists true. split; [exact HD|].
      rewrite bind_run. unfold console_log at 1, tell at 1. cbv beta iota.
      rewrite bind_run. unfold console_log at 1, tell at 1. cbv beta iota.
      unfold console_log, tell. rewrite <- !app_assoc. reflexivity.
    + exists false. split; [exact HD|]. rewrite <- !app_assoc. reflexivity.
  - rewrite !Hstep.
    rewrite bind_run. unfold ret at 1. cbv beta iota.
    rewrite !Hstep.
    rewrite bind_run. unfold console_log at 1, tell at 1. cbv beta iota.
    rewrite bind_run. unfold console_log at 1, tell at 1. cbv beta iota.
    rewrite bind_run. unfold execSync, syscall.
    match goal with |- context [host ?t ?c] => destruct (host t c) end; cbv beta iota.
    + exists true. split; [exact HD|].
      rewrite bind_run. unfold console_log at 1, tell at 1. cbv beta iota.
      rewrite bind_run. unfold console_log at 1, tell at 1. cbv beta iota.
      unfold console_log, tell. rewrite <- !app_assoc. reflexivity.
    + exists false. split; [exact HD|]. rewrite <- !app_assoc. reflexivity.
Qed.

(** The three answers of the scenario, on a host whose registry has
    typescript 5.2.2. *)
Lemma prompts_my_app host more :
  (forall t, host t (ExecSync "npm view typescript@5.2.2 version" None Ignore) = true) ->
  prompts host (Submit "my-app" :: Submit "5.2.2" :: Submit "y" :: more) [ConsoleLog Banner]
  = (Ret {| projectName := "my-app"; typescriptVersion := "5.2.2"; useEslint := true |},
     [ConsoleLog Banner; Ask "projectName"; Ask "typescriptVersion";
      Sys (ExecSync "npm view typescript@5.2.2 version" None Ignore) true;
      Ask "useEslint"]).
Proof.
  intros Hreg. unfold prompts.
  rewrite bind_run. unfold tell at 1. cbv beta iota.
  rewrite bind_run. cbn [textPrompt Str.isEmpty].
  rewrite bind_run. unfold validateProjectName at 1, ret at 1.
  cbn [Str.isEmpty]. cbv beta iota. unfold ret at 1. cbv beta iota.
  rewrite bind_run. unfold tell at 1. cbv beta iota.
  rewrite bind_run. cbn [fst snd textPrompt Str.isEmpty].
  rewrite bind_run. unfold validateTypescriptVersion at 1.
  rewrite bind_run, versionExists_run.
  change ("npm view " +:+ "typescript" +:+ "@" +:+ "5.2.2" +:+ " version")
    with "npm view typescript@5.2.2 version".
  rewrite Hreg. unfold ret at 1. cbv beta iota. unfold ret at 1. cbv beta iota.
  rewrite bind_run. unfold tell at 1. cbv beta iota.
  rewrite bind_run. cbn [fst snd confirmPrompt Str.isEmpty].
  reflexivity.
Qed.

(** C1, as amended.  For the answers [my-app], [5.2.2] (known to the
    registry) and yes, on a host whose disk accepts the writes, exactly six
    files are written under the project directory [resolve(cwd, my-app)]:
    the manifest, whose [scripts] member has a [lint] entry, the compiler
    configuration, the lint configuration and the three source stubs; the
    install command of the detected package manager is then launched with
    the project directory as working directory. *)
Theorem my_app_scenario
    (process_cwd : string) (host : Trace -> Call -> bool) (more : list Action) :
  (forall t, host t (ExecSync "npm view typescript@5.2.2 version" None Ignore) = true) ->
  (forall t path, host t (MkdirSync path true) = true) ->
  (forall t path data, host t (WriteFileSync path data) = true) ->
  let keys := Submit "my-app" :: Submit "5.2.2" :: Submit "y" :: more in
  let r := {| projectName := "my-app"; typescriptVersion := "5.2.2"; useEslint := true |} in
  let dir := Path.resolve process_cwd [process_cwd; "my-app"] in
  let t := snd (run process_cwd host keys) in
  written t = map (emit dir) (ManifestBuilder r)
  /\ map relativePath (ManifestBuilder r)
     = ["package.json"; "tsconfig.json"; "eslint.config.mjs";
        "index.ts"; "server.ts"; "routes.ts"]
  /\ length (written t) = 6
  /\ In (emit dir lintArtifact) (written t)
  /\ In (Path.join [dir; "package.json"],
         stringify (package_json "my-app" "5.2.2" true)) (written t)
  /\ get "lint" (scripts true) = Some (Str "eslint . --ext .ts")
  /\ (exists block,
         get "scripts" (members (package_json "my-app" "5.2.2" true)) = Some (Obj block)
         /\ JSON.keys block = ["build"; "dev"; "lint"; "test"]
         /\ get "lint" block = Some (Str "eslint . --ext .ts"))
  /\ (exists pm ok, In pm (candidates ++ [fallback]) /\ In (install pm dir ok) t)
  /\ (forall cwd,
         Forall (fun s => plain s = true) cwd -> process_cwd = absPath cwd ->
         dir = absPath (cwd ++ ["my-app"])
         /\ map fst (written t)
            = map (fun file => absPath (cwd ++ ["my-app"; file]))
                ["package.json"; "tsconfig.json"; "eslint.config.mjs";
                 "index.ts"; "server.ts"; "routes.ts"]).
Proof.
  intros Hreg Hmkdir Hwrite. cbv zeta.
  set (r := {| projectName := "my-app"; typescriptVersion := "5.2.2"; useEslint := true |}).
  set (dir := Path.resolve process_cwd [process_cwd; "my-app"]).
  destruct (scaffold_on_working_disk process_cwd host r
              [ConsoleLog Banner; Ask "projectName"; Ask "typescriptVersion";
               Sys (ExecSync "npm view typescript@5.2.2 version" None Ignore) true;
               Ask "useEslint"] Hmkdir Hwrite) as (pm & ps & ok & HD & Hs).
  assert (run process_cwd host (Submit "my-app" :: Submit "5.2.2" :: Submit "y" :: more)
          = scaffold process_cwd host r
              [ConsoleLog Banner; Ask "projectName"; Ask "typescriptVersion";
               Sys (ExecSync "npm view typescript@5.2.2 version" None Ignore) true;
               Ask "useEslint"]) as ->.
  { unfold run, main.
    rewrite bind_run. unfold console_log at 1, tell at 1. cbv beta iota.
    rewrite bind_run. cbn [app]. now rewrite (prompts_my_app host more Hreg). }
  rewrite Hs. cbn [snd]. change (projectDir process_cwd (projectName r)) with dir.
  destruct (Detected_probes _ _ HD) as [Hpm Hp].
  assert (written
            ([ConsoleLog Banner; Ask "projectName"; Ask "typescriptVersion";
              Sys (ExecSync "npm view typescript@5.2.2 version" None Ignore) true;
              Ask "useEslint"]
               ++ Sys (MkdirSync dir true) true :: ps
               ++ map (wrote dir true) (ManifestBuilder r)
               ++ [ConsoleLog (Created (projectName r)); ConsoleLog (Installing pm);
                   install pm dir ok]
               ++ (if ok
                   then [ConsoleLog NextSteps; ConsoleLog (ChangeDir (projectName r));
                         ConsoleLog (RunDev pm)]
                   else []))
          = map (emit dir) (ManifestBuilder r)) as ->.
  { rewrite written_app, (written_scaffolded _ _ _ _ _ Hp), written_app.
    rewrite <- (app_nil_r (map (emit dir) (ManifestBuilder r))) at 2.
    now destruct ok. }
  split; [reflexivity|]. split; [reflexivity|]. split; [reflexivity|].
  split; [cbn; auto|]. split; [cbn; auto|]. split; [reflexivity|].
  split; [exists (scripts true); now repeat split|].
  split.
  { exists pm, ok. split; [exact Hpm|].
    rewrite !in_app_iff. right. cbn [In]. right. rewrite !in_app_iff.
    right. right. left. cbn. auto. }
  intros cwd Hcwd Hcwd_eq.
  assert (dir = absPath (cwd ++ ["my-app"])) as Hdir.
  { unfold dir. rewrite Hcwd_eq. now apply PathFacts.resolve_child. }
  split; [exact Hdir|].
  assert (Forall (fun s => plain s = true) (cwd ++ ["my-app"])) as Hsegs.
  { apply Forall_app. split; [exact Hcwd | now constructor]. }
  rewrite Hdir. unfold ManifestBuilder, r. cbn [useEslint app map emit relativePath fst].
  rewrite !(PathFacts.join_child _ _ Hsegs) by reflexivity.
  now rewrite <- !app_assoc.
Qed.

(** In [/home/dev], on a host where everything succeeds, the six files land
    in [/home/dev/my-app]. *)
Lemma my_app_scenario_witness :
  let t := snd (run "/home/dev" allOk [Submit "my-app"; Submit "5.2.2"; Submit "y"]) in
  let r := {| projectName := "my-app"; typescriptVersion := "5.2.2"; useEslint := true |} in
  written t = map (emit "/home/dev/my-app") (ManifestBuilder r)
  /\ length (written t) = 6
  /\ exists pm ok,
       In pm (candidates ++ [fallback]) /\ In (install pm "/home/dev/my-app" ok) t.
Proof.
  destruct (my_app_scenario "/home/dev" allOk [])
    as (Hw & _ & Hlen & _ & _ & _ & _ & Hinstall & _);
    try (intros; reflexivity).
  exact (conj Hw (conj Hlen Hinstall)).
Defined.

(** C1, as stated, fails: the run writes six files, not five. *)
Lemma my_app_writes_six_files :
  map fst (written (snd (run "/home/dev" allOk
                           [Submit "my-app"; Submit "5.2.2"; Submit "y"])))
  = ["/home/dev/my-app/package.json"; "/home/dev/my-app/tsconfig.json";
     "/home/dev/my-app/eslint.config.mjs"; "/home/dev/my-app/index.ts";
     "/home/dev/my-app/server.ts"; "/home/dev/my-app/routes.ts"]
  /\ length (written (snd (run "/home/dev" allOk
                             [Submit "my-app"; Submit "5.2.2"; Submit "y"]))) <> 5.
Proof. split; [vm_compute; reflexivity | vm_compute; discriminate]. Qed.

(** C2, as amended.  In every run that launches the install command, every
    artifact has been written before, and the outcome of the command decides
    the exit code of the tool: 0 when it succeeds, 1 when it fails, the
    exception of [execSync] being caught nowhere.  A failed install is the
    last thing the script does: the next-step hints are not printed, and
    nothing is undone. *)
Theorem install_outcome_is_exit_code
    (process_cwd : string) (host : Trace -> Call -> bool) (keys : list Action)
    (pm dir : string) (ok : bool) :
  In (install pm dir ok) (snd (run process_cwd host keys)) ->
  exitCode (fst (run process_cwd host keys)) = Some (if ok then 0 else 1)
  /\ (exists r,
         dir = projectDir process_cwd (projectName r)
         /\ written (snd (run process_cwd host keys))
            = map (emit dir) (ManifestBuilder r))
  /\ (ok = false ->
      exists before, snd (run process_cwd host keys) = before ++ [install pm dir false]).
Proof.
  pose proof (main_run process_cwd host keys) as H.
  destruct (run process_cwd host keys) as [res t]. cbn [fst snd].
  intros Hin.
  destruct H as [(asked & -> & Hasked & _)|(r & asked & new & _ & Hasked & _ & _ & -> & HS)].
  - exfalso. destruct Hin as [|Hin]; [discriminate|].
    rewrite forallb_forall in Hasked. apply Hasked in Hin. discriminate.
  - assert (In (install pm dir ok) new) as Hnew.
    { destruct Hin as [|Hin]; [discriminate|].
      apply in_app_iff in Hin as [Hin|Hin]; [|exact Hin].
      rewrite forallb_forall in Hasked. apply Hasked in Hin. discriminate. }
    destruct (Scaffolded_install _ _ _ _ _ _ _ _ HS Hnew)
      as (pm' & _ & Hcmd & -> & _ & -> & Hw & Hlast).
    split; [now destruct ok|]. split.
    + exists r. split; [reflexivity|].
      change (?x :: ?l) with ([x] ++ l).
      now rewrite !written_app, (written_asked _ Hasked), Hw.
    + intros ->. destruct (Hlast eq_refl) as (before & ->).
      exists (ConsoleLog Banner :: asked ++ before).
      unfold install. rewrite Hcmd. cbn [app]. now rewrite <- app_assoc.
Qed.

(** In [/home/dev], on a host where only the install command fails, the six
    files are written and the tool exits with code 1. *)
Lemma install_outcome_is_exit_code_witness :
  exitCode (fst (run "/home/dev" installFails
                   [Submit "my-app"; Submit "5.2.2"; Submit "y"])) = Some 1
  /\ (exists r,
         "/home/dev/my-app" = projectDir "/home/dev" (projectName r)
         /\ written (snd (run "/home/dev" installFails
                            [Submit "my-app"; Submit "5.2.2"; Submit "y"]))
            = map (emit "/home/dev/my-app") (ManifestBuilder r))
  /\ (false = false ->
      exists before,
        snd (run "/home/dev" installFails [Submit "my-app"; Submit "5.2.2"; Submit "y"])
        = before ++ [install "pnpm" "/home/dev/my-app" false]).
Proof.
  apply (install_outcome_is_exit_code "/home/dev" installFails
           [Submit "my-app"; Submit "5.2.2"; Submit "y"] "pnpm" "/home/dev/my-app" false).
  vm_compute. do 15 right. left. reflexivity.
Defined.

(** C2, as stated, fails: every artifact is written, the install command
    fails, and the exit code is 1, not 0. *)
Lemma install_failure_exits_with_1 :
  map fst (written (snd (run "/home/dev" installFails
                           [Submit "my-app"; Submit "5.2.2"; Submit "y"])))
  = ["/home/dev/my-app/package.json"; "/home/dev/my-app/tsconfig.json";
     "/home/dev/my-app/eslint.config.mjs"; "/home/dev/my-app/index.ts";
     "/home/dev/my-app/server.ts"; "/home/dev/my-app/routes.ts"]
  /\ In (install "pnpm" "/home/dev/my-app" false)
       (snd (run "/home/dev" installFails [Submit "my-app"; Submit "5.2.2"; Submit "y"]))
  /\ exitCode (fst (run "/home/dev" installFails
                      [Submit "my-app"; Submit "5.2.2"; Submit "y"])) = Some 1
  /\ exitCode (fst (run "/home/dev" installFails
                      [Submit "my-app"; Submit "5.2.2"; Submit "y"])) <> Some 0.
Proof.
  split; [vm_compute; reflexivity|].
  split; [vm_compute; do 15 right; now left|].
  split; [vm_compute; reflexivity | vm_compute; discriminate].
Qed.

(** * Further properties of the script *)

(** ** The package manager that installs *)

Lemma detected_outcome (outcome : string -> bool) pm probes :
  Detected pm probes ->
  (forall c ok, In (probe c ok) probes -> In c candidates -> outcome c = ok) ->
  pm = match List.find outcome candidates with
       | Some c => c
       | None => fallback
       end.
Proof.
  intros HD H. cbn [List.find candidates].
  destruct HD.
  - rewrite (H "pnpm" true) by (cbn; auto). reflexivity.
  - rewrite (H "pnpm" false), (H "yarn" true) by (cbn; auto). reflexivity.
  - rewrite (H "pnpm" false), (H "yarn" false), (H "bun" true) by (cbn; auto 6).
    reflexivity.
  - rewrite (H "pnpm" false), (H "yarn" false), (H "bun" false) by (cbn; auto 6).
    reflexivity.
Qed.

(** The install command of a run, with the probes that chose its package
    manager. *)
Lemma Scaffolded_launch dir r res new cmd d io ok :
  Scaffolded dir r res new ->
  In (Sys (ExecSync cmd (Some d) io) ok) new ->
  exists pm probes,
    Detected pm probes /\ cmd = pm +:+ " install"
    /\ (forall e, In e probes -> In e new).
Proof.
  intros HS Hin.
  destruct HS as [|pm probes done' a todo' HD _|pm probes HD|pm probes HD];
    try (pose proof (Detected_probes _ _ HD) as [Hpm Hp]).
  - in_cases Hin I.
  - in_cases Hin Hp.
  - in_cases Hin Hp. injection Hin as <- _ _ _. exists pm, probes.
    repeat split; auto. intros e He. right. apply in_app_iff. now left.
  - in_cases Hin Hp. injection Hin as <- _ _ _. exists pm, probes.
    repeat split; auto. intros e He. right. apply in_app_iff. now left.
Qed.

(** X1. On a host where the version probe of each candidate has a fixed
    outcome, every subprocess the script launches with a working directory
    runs the install command of the first candidate whose probe succeeds,
    and [npm install] when none does. *)
Theorem install_follows_detection
    (process_cwd : string) (host : Trace -> Call -> bool) (outcome : string -> bool)
    (keys : list Action) (cmd dir : string) (io : Stdio) (ok : bool) :
  (forall t c, In c candidates ->
     host t (ExecSync (c +:+ " --version") None Ignore) = outcome c) ->
  In (Sys (ExecSync cmd (Some dir) io) ok) (snd (run process_cwd host keys)) ->
  cmd = match List.find outcome candidates with
        | Some c => c
        | None => fallback
        end +:+ " install".
Proof.
  intros Hout.
  pose proof (run_answer process_cwd host keys) as Hans.
  pose proof (main_run process_cwd host keys) as H.
  destruct (run process_cwd host keys) as [res t]. cbn [snd] in *.
  intros Hin.
  destruct H as [(asked & -> & Hasked & _)|(r & asked & new & _ & Hasked & _ & _ & -> & HS)].
  - exfalso. destruct Hin as [|Hin]; [discriminate|].
    rewrite forallb_forall in Hasked. apply Hasked in Hin. discriminate.
  - assert (In (Sys (ExecSync cmd (Some dir) io) ok) new) as Hnew.
    { destruct Hin as [|Hin]; [discriminate|].
      apply in_app_iff in Hin as [Hin|Hin]; [|exact Hin].
      rewrite forallb_forall in Hasked. apply Hasked in Hin. discriminate. }
    destruct (Scaffolded_launch _ _ _ _ _ _ _ _ HS Hnew) as (pm & probes & HD & -> & Hsub).
    f_equal. apply (detected_outcome outcome pm probes HD).
    intros c okc Hc Hcand.
    destruct (Hans (ExecSync (c +:+ " --version") None Ignore) okc) as (t' & <-).
    + right. apply in_app_iff. right. now apply Hsub.
    + symmetry. now apply Hout.
Qed.

(** On a host with none of the candidates, the run installs with npm. *)
Lemma install_follows_detection_witness :
  "npm install" = fallback +:+ " install".
Proof.
  apply (install_follows_detection "/home/dev" onlyNpm (fun _ => false)
           [Submit "my-app"; Submit "5.2.2"; Submit "y"]
           "npm install" "/home/dev/my-app" Inherit true).
  - intros t c Hc. cbn in Hc. destruct Hc as [<-|[<-|[<-|[]]]]; reflexivity.
  - vm_compute. do 17 right. now left.
Defined.

(** ** Failures of the file system *)

Lemma run_shape process_cwd host keys :
  (exists asked,
      snd (run process_cwd host keys) = ConsoleLog Banner :: asked
      /\ forallb isPromptEvent asked = true
      /\ (fst (run process_cwd host keys) = Exit 1
          \/ fst (run process_cwd host keys) = Blocked))
  \/ (exists r asked new,
        forallb isPromptEvent asked = true
        /\ projectName r <> EmptyString
        /\ inRegistry host (typescriptVersion r)
        /\ snd (run process_cwd host keys) = ConsoleLog Banner :: asked ++ new
        /\ Scaffolded (projectDir process_cwd (projectName r)) r
             (fst (run process_cwd host keys)) new).
Proof.
  pose proof (main_run process_cwd host keys) as H.
  destruct (run process_cwd host keys) as [res t]. cbn [fst snd].
  destruct H as [(asked & -> & Hasked & Hres)|(r & asked & new & _ & Hasked & Hn & Hreg & -> & HS)].
  - left. now exists asked.
  - right. now exists r, asked, new.
Qed.

Lemma in_run_new (asked new : Trace) e :
  forallb isPromptEvent asked = true -> isPromptEvent e = false ->
  In e (ConsoleLog Banner :: asked ++ new) -> e = ConsoleLog Banner \/ In e new.
Proof.
  intros Hasked He [<-|Hin]; [now left|].
  apply in_app_iff in Hin as [Hin|Hin]; [|now right].
  rewrite forallb_forall in Hasked. apply Hasked in Hin. congruence.
Qed.

(** X2. When the project directory cannot be created, the exception of
    [mkdirSync] ends the tool with exit code 1: the failed call is the last
    event of the run, after the prompts only, and no file was written. *)
Theorem mkdir_failure_is_fatal
    (process_cwd : string) (host : Trace -> Call -> bool) (keys : list Action)
    (path : string) (recursive : bool) :
  In (Sys (MkdirSync path recursive) false) (snd (run process_cwd host keys)) ->
  exitCode (fst (run process_cwd host keys)) = Some 1
  /\ written (snd (run process_cwd host keys)) = []
  /\ recursive = true
  /\ exists asked r,
       forallb isPromptEvent asked = true
       /\ path = projectDir process_cwd (projectName r)
       /\ snd (run process_cwd host keys)
          = ConsoleLog Banner :: asked ++ [Sys (MkdirSync path true) false].
Proof.
  intros Hin.
  destruct (run_shape process_cwd host keys)
    as [(asked & E & Hasked & _)|(r & asked & new & Hasked & _ & _ & E & HS)];
    rewrite E in Hin |- *.
  - exfalso. destruct Hin as [|Hin]; [discriminate|].
    rewrite forallb_forall in Hasked. apply Hasked in Hin. discriminate.
  - apply in_run_new in Hin as [|Hin]; [discriminate| |exact Hasked|reflexivity].
    destruct HS as [|pm probes done' a todo' HD _|pm probes HD|pm probes HD];
      try (pose proof (Detected_probes _ _ HD) as [Hpm Hp]).
    + in_cases Hin I. injection Hin as <- <-.
      split; [reflexivity|]. split.
      * change (?x :: ?l) with ([x] ++ l).
        now rewrite !written_app, (written_asked _ Hasked).
      * split; [reflexivity|]. now exists asked, r.
    + in_cases Hin Hp.
    + in_cases Hin Hp.
    + in_cases Hin Hp.
Qed.

Lemma mkdir_failure_is_fatal_witness :
  exitCode (fst (run "/home/dev" mkdirFails
                   [Submit "my-app"; Submit "5.2.2"; Submit "y"])) = Some 1
  /\ written (snd (run "/home/dev" mkdirFails
                     [Submit "my-app"; Submit "5.2.2"; Submit "y"])) = []
  /\ true = true
  /\ exists asked r,
       forallb isPromptEvent asked = true
       /\ "/home/dev/my-app" = projectDir "/home/dev" (projectName r)
       /\ snd (run "/home/dev" mkdirFails [Submit "my-app"; Submit "5.2.2"; Submit "y"])
          = ConsoleLog Banner :: asked ++ [Sys (MkdirSync "/home/dev/my-app" true) false].
Proof.
  apply (mkdir_failure_is_fatal "/home/dev" mkdirFails
           [Submit "my-app"; Submit "5.2.2"; Submit "y"] "/home/dev/my-app" true).
  vm_compute. do 5 right. now left.
Defined.

(** X3. When a file cannot be written, the exception of [writeFileSync]
    ends the tool with exit code 1: the failed call is the last event of the
    run, the files written before it are the artifacts that precede it in
    the sequence and are left as they are, and the install command is not
    launched. *)
Theorem write_failure_is_fatal
    (process_cwd : string) (host : Trace -> Call -> bool) (keys : list Action)
    (path data : string) :
  In (Sys (WriteFileSync path data) false) (snd (run process_cwd host keys)) ->
  exitCode (fst (run process_cwd host keys)) = Some 1
  /\ (exists before,
         snd (run process_cwd host keys) = before ++ [Sys (WriteFileSync path data) false])
  /\ (exists r done a todo,
         ManifestBuilder r = done ++ a :: todo
         /\ path = Path.join [projectDir process_cwd (projectName r); relativePath a]
         /\ data = content a
         /\ written (snd (run process_cwd host keys))
            = map (emit (projectDir process_cwd (projectName r))) done)
  /\ (forall cmd dir io ok,
         ~ In (Sys (ExecSync cmd (Some dir) io) ok) (snd (run process_cwd host keys))).
Proof.
  intros Hin.
  destruct (run_shape process_cwd host keys)
    as [(asked & E & Hasked & _)|(r & asked & new & Hasked & _ & _ & E & HS)];
    rewrite E in Hin |- *.
  - exfalso. destruct Hin as [|Hin]; [discriminate|].
    rewrite forallb_forall in Hasked. apply Hasked in Hin. discriminate.
  - apply in_run_new in Hin as [|Hin]; [discriminate| |exact Hasked|reflexivity].
    destruct HS as [|pm probes done' a todo' HD HM|pm probes HD|pm probes HD];
      try (pose proof (Detected_probes _ _ HD) as [Hpm Hp]).
    + in_cases Hin I.
    + in_cases Hin Hp. injection Hin as <- <-.
      split; [reflexivity|]. split; [|split].
      * exists (ConsoleLog Banner :: asked
                  ++ Sys (MkdirSync (projectDir process_cwd (projectName r)) true) true
                  :: probes ++ map (wrote (projectDir process_cwd (projectName r)) true) done').
        cbn [app]. rewrite <- !app_assoc. cbn [app]. now rewrite <- !app_assoc.
      * exists r, done', a, todo'. repeat split; [exact HM|].
        change (ConsoleLog Banner :: ?l) with ([ConsoleLog Banner] ++ l).
        rewrite !written_app, (written_asked _ Hasked),
          (written_scaffolded _ _ _ _ _ Hp).
        cbn. now rewrite app_nil_r.
      * intros cmd dir io ok Hin.
        apply in_run_new in Hin as [|Hin]; [discriminate| |exact Hasked|reflexivity].
        in_cases Hin Hp.
    + in_cases Hin Hp.
    + in_cases Hin Hp.
Qed.

Lemma write_failure_is_fatal_witness :
  exitCode (fst (run "/home/dev" indexFails
                   [Submit "my-app"; Submit "5.2.2"; Submit "n"])) = Some 1.
Proof.
  apply (write_failure_is_fatal "/home/dev" indexFails
           [Submit "my-app"; Submit "5.2.2"; Submit "n"]
           "/home/dev/my-app/index.ts" index_ts).
  vm_compute. do 9 right. now left.
Defined.

(** ** The dialogue *)

Lemma questions_app (t1 t2 : Trace) : questions (t1 ++ t2) = questions t1 ++ questions t2.
Proof. unfold questions. apply omap_app. Qed.

Lemma questions_cons e (t : Trace) :
  questions (e :: t)
  = match asked e with
    | Some q => q :: questions t
    | None => questions t
    end.
Proof. reflexivity. Qed.

Lemma questions_attempts l : forallb isAttempt l = true -> questions l = [].
Proof.
  induction l as [|e l IH]; [reflexivity|]. cbn [forallb].
  intros [He Hl]%andb_prop. unfold questions in *. cbn [omap list_omap].
  destruct e; try discriminate He; now apply IH.
Qed.

Lemma attempts_dialogue l : forallb isAttempt l = true -> forallb isDialogue l = true.
Proof.
  rewrite !forallb_forall. intros H e He. specialize (H e He).
  destruct e; try discriminate H; auto.
Qed.

Lemma dialogue_is_quiet l :
  forallb isDialogue l = true ->
  forallb (fun e => negb (touchesFileSystem e)) l = true /\ written l = [].
Proof.
  induction l as [|e l IH]; [now split|]. cbn [forallb].
  intros [He Hl]%andb_prop. destruct (IH Hl) as [H1 H2].
  unfold written in *. cbn [omap list_omap].
  destruct e as [[? [?|] []| |] ?| | |]; try discriminate He; cbn; auto.
Qed.

(** How a text prompt ends, and what it leaves in the trace. *)
Lemma textPrompt_shape name initial (validate : string -> M Validation) keys t :
  (forall value t0, exists v new,
      validate value t0 = (Ret v, t0 ++ new) /\ forallb isAttempt new = true) ->
  exists res body,
    forallb isAttempt body = true
    /\ match res with
       | Ret a =>
           textPrompt name initial validate keys t = (res, t ++ body)
           /\ exists t0 t1, validate (fst a) t0 = (Ret Valid, t1)
       | Exit code =>
           textPrompt name initial validate keys t
           = (res, t ++ body ++ [ConsoleLog Cancelled])
           /\ code = 1
       | Blocked => textPrompt name initial validate keys t = (res, t ++ body)
       | Throw => False
       end.
Proof.
  intros Hv. revert t.
  induction keys as [|[typed|] rest IH]; intros t.
  - exists Blocked, []. rewrite app_nil_r. now cbn.
  - set (value := if Str.isEmpty typed then initial else typed).
    destruct (Hv value t) as (v & new & Hval & Hnew).
    assert (textPrompt name initial validate (Submit typed :: rest) t
            = match v with
              | Valid => (Ret (value, rest), t ++ new)
              | Invalid error =>
                  textPrompt name initial validate rest ((t ++ new) ++ [Reject name error])
              end) as Hstep.
    { cbn [textPrompt]. rewrite bind_run. fold value. rewrite Hval.
      destruct v; [reflexivity|]. rewrite bind_run. reflexivity. }
    destruct v as [|error].
    + exists (Ret (value, rest)), new. split; [exact Hnew|]. split; [exact Hstep|].
      cbn. now exists t, (t ++ new).
    + destruct (IH ((t ++ new) ++ [Reject name error])) as (res & body & Hbody & Hres).
      exists res, (new ++ Reject name error :: body). split.
      { rewrite forallb_app, Hnew. cbn. exact Hbody. }
      destruct res as [a| |code|]; [| contradiction | |].
      * destruct Hres as [Heq Hacc]. split; [|exact Hacc].
        rewrite Hstep, Heq, <- !app_assoc. reflexivity.
      * destruct Hres as [Heq Hcode]. split; [|exact Hcode].
        rewrite Hstep, Heq, <- !app_assoc. reflexivity.
      * rewrite Hstep, Hres, <- !app_assoc. reflexivity.
  - exists (Exit 1), []. now cbn.
Qed.

Lemma confirmPrompt_shape initial keys t :
  (exists answer rest, confirmPrompt initial keys t = (Ret (answer, rest), t))
  \/ confirmPrompt initial keys t = (Blocked, t)
  \/ confirmPrompt initial keys t = (Exit 1, t ++ [ConsoleLog Cancelled]).
Proof.
  induction keys as [|[typed|] rest IH].
  - right. now left.
  - cbn [confirmPrompt].
    destruct (Str.isEmpty typed); [left; now eexists _, _|].
    destruct (_ || _); [left; now eexists _, _|].
    destruct (_ || _); [left; now eexists _, _|].
    exact IH.
  - right. now right.
Qed.

Lemma validateProjectName_attempts value t0 :
  exists v new,
    validateProjectName value t0 = (Ret v, t0 ++ new)
    /\ forallb isAttempt new = true.
Proof. eexists _, []. rewrite app_nil_r. now cbn. Qed.

Lemma validateTypescriptVersion_attempts host value t0 :
  exists v new,
    validateTypescriptVersion host value t0 = (Ret v, t0 ++ new)
    /\ forallb isAttempt new = true.
Proof.
  unfold validateTypescriptVersion. rewrite bind_run, versionExists_run.
  eexists _, [_]. now cbn.
Qed.

(** The stages of the dialogue: [stage] questions were asked, in the order
    of the questionnaire; the dialogue ends with the answers only after the
    third, and the third is asked only for a version the registry knows. *)
(** Brings a trace built by successive appends to its right-nested form. *)
Ltac flatten := repeat first [rewrite <- app_assoc | progress cbn [app]].

Lemma prompts_shape host keys t :
  exists res body stage,
    prompts host keys t
    = (res, t ++ body ++ match res with Exit _ => [ConsoleLog Cancelled] | _ => [] end)
    /\ forallb isDialogue body = true
    /\ questions body = firstn stage questionnaire
    /\ 1 <= stage <= 3
    /\ (stage = 3 -> exists version, inRegistry host version)
    /\ match res with
       | Ret r =>
           stage = 3 /\ projectName r <> EmptyString
           /\ inRegistry host (typescriptVersion r)
       | Exit code => code = 1
       | Blocked => True
       | Throw => False
       end.
Proof.
  unfold prompts. rewrite bind_run. unfold tell at 1. cbv beta iota.
  rewrite bind_run.
  destruct (textPrompt_shape "projectName" EmptyString validateProjectName keys
              (t ++ [Ask "projectName"]) validateProjectName_attempts)
    as (res1 & n1 & Hn1 & He1).
  pose proof (questions_attempts _ Hn1) as Hq1.
  pose proof (attempts_dialogue _ Hn1) as Hd1.
  destruct res1 as [[name keys1]| |code|]; [| contradiction | |].
  2:{ destruct He1 as [-> ->]. exists (Exit 1), (Ask "projectName" :: n1), 1.
      flatten. split; [reflexivity|].
      split; [exact Hd1|]. split; [rewrite questions_cons; cbn [asked]; now rewrite Hq1|].
      repeat split; try lia; try discriminate; eauto. }
  2:{ rewrite He1. exists Blocked, (Ask "projectName" :: n1), 1.
      rewrite ?app_nil_r. flatten. split; [reflexivity|].
      split; [exact Hd1|]. split; [rewrite questions_cons; cbn [asked]; now rewrite Hq1|].
      repeat split; try lia; try discriminate; eauto. }
  destruct He1 as [-> Hacc1].
  assert (name <> EmptyString) as Hname.
  { destruct Hacc1 as (t0 & t1 & Hv). cbn in Hv. intros ->. discriminate Hv. }
  rewrite bind_run. unfold tell at 1. cbv beta iota. rewrite bind_run. cbn [fst snd].
  destruct (textPrompt_shape "typescriptVersion" "5.2.2" (validateTypescriptVersion host)
              keys1 (((t ++ [Ask "projectName"]) ++ n1) ++ [Ask "typescriptVersion"])
              (validateTypescriptVersion_attempts host))
    as (res2 & n2 & Hn2 & He2).
  pose proof (questions_attempts _ Hn2) as Hq2.
  pose proof (attempts_dialogue _ Hn2) as Hd2.
  assert (forallb isDialogue (Ask "projectName" :: n1 ++ Ask "typescriptVersion" :: n2) = true)
    as Hd12.
  { cbn [forallb isDialogue andb]. rewrite forallb_app, Hd1. cbn. exact Hd2. }
  assert (questions (Ask "projectName" :: n1 ++ Ask "typescriptVersion" :: n2)
          = ["projectName"; "typescriptVersion"]) as Hq12.
  { repeat first [rewrite questions_app | rewrite questions_cons].
    cbn [asked]. now rewrite Hq1, Hq2. }
  destruct res2 as [[version keys2]| |code|]; [| contradiction | |].
  2:{ destruct He2 as [-> ->].
      exists (Exit 1), (Ask "projectName" :: n1 ++ Ask "typescriptVersion" :: n2), 2.
      flatten.
      split; [reflexivity|]. split; [exact Hd12|]. split; [exact Hq12|].
      repeat split; try lia; try discriminate; eauto. }
  2:{ rewrite He2.
      exists Blocked, (Ask "projectName" :: n1 ++ Ask "typescriptVersion" :: n2), 2.
      rewrite ?app_nil_r. flatten.
      split; [reflexivity|]. split; [exact Hd12|]. split; [exact Hq12|].
      repeat split; try lia; try discriminate; eauto. }
  destruct He2 as [-> Hacc2].
  assert (inRegistry host version) as Hreg.
  { destruct Hacc2 as (t0 & t1 & Hv). cbn [fst] in Hv.
    unfold validateTypescriptVersion in Hv.
    rewrite bind_run, versionExists_run in Hv. exists t0.
    destruct (host t0 _); [reflexivity | discriminate Hv]. }
  rewrite bind_run. unfold tell at 1. cbv beta iota. rewrite bind_run. cbn [fst snd].
  assert (forallb isDialogue
            (Ask "projectName" :: n1 ++ Ask "typescriptVersion" :: n2 ++ [Ask "useEslint"])
          = true) as Hd123.
  { cbn [forallb isDialogue andb]. rewrite forallb_app, Hd1. cbn.
    rewrite forallb_app, Hd2. reflexivity. }
  assert (questions
            (Ask "projectName" :: n1 ++ Ask "typescriptVersion" :: n2 ++ [Ask "useEslint"])
          = questionnaire) as Hq123.
  { repeat first [rewrite questions_app | rewrite questions_cons].
    cbn [asked]. now rewrite Hq1, Hq2. }
  destruct (confirmPrompt_shape true keys2
              (((((t ++ [Ask "projectName"]) ++ n1) ++ [Ask "typescriptVersion"])
                  ++ n2) ++ [Ask "useEslint"]))
    as [(answer & rest & ->)|[->| ->]].
  - unfold ret.
    exists (Ret {| projectName := name; typescriptVersion := version; useEslint := answer |}),
      (Ask "projectName" :: n1 ++ Ask "typescriptVersion" :: n2 ++ [Ask "useEslint"]), 3.
    cbn [fst]. rewrite ?app_nil_r. flatten.
    split; [reflexivity|]. split; [exact Hd123|]. split; [exact Hq123|].
    repeat split; try lia; try discriminate; eauto.
  - exists Blocked,
      (Ask "projectName" :: n1 ++ Ask "typescriptVersion" :: n2 ++ [Ask "useEslint"]), 3.
    rewrite ?app_nil_r. flatten.
    split; [reflexivity|]. split; [exact Hd123|]. split; [exact Hq123|].
    repeat split; try lia; try discriminate; eauto.
  - exists (Exit 1),
      (Ask "projectName" :: n1 ++ Ask "typescriptVersion" :: n2 ++ [Ask "useEslint"]), 3.
    flatten.
    split; [reflexivity|]. split; [exact Hd123|]. split; [exact Hq123|].
    repeat split; try lia; try discriminate; eauto.
Qed.

(** ** The stages of a run *)

Lemma questions_wrote dir ok (l : list Artifact) : questions (map (wrote dir ok) l) = [].
Proof. induction l as [|a l IH]; [reflexivity|]. cbn [map]. now rewrite questions_cons. Qed.

Lemma Scaffolded_no_questions dir r res new :
  Scaffolded dir r res new -> questions new = [].
Proof.
  assert (forall pm probes, Detected pm probes -> questions probes = []) as Hprobes
    by (destruct 1; reflexivity).
  destruct 1 as [|pm probes done a todo HD HM|pm probes HD|pm probes HD];
    repeat first [rewrite questions_app | rewrite questions_cons | rewrite questions_wrote];
    cbn [asked install wrote]; rewrite ?(Hprobes _ _ HD); reflexivity.
Qed.

(** A run ends in the dialogue, cancelled or left waiting, or goes on to
    the file system with the answers of the three prompts. *)
Lemma run_stages process_cwd host keys :
  exists body stage,
    forallb isDialogue body = true
    /\ questions body = firstn stage questionnaire
    /\ 1 <= stage <= 3
    /\ (stage = 3 -> exists version, inRegistry host version)
    /\ (run process_cwd host keys
        = (Exit 1, ConsoleLog Banner :: body ++ [ConsoleLog Cancelled])
        \/ run process_cwd host keys = (Blocked, ConsoleLog Banner :: body)
        \/ exists r res new,
             stage = 3 /\ projectName r <> EmptyString
             /\ inRegistry host (typescriptVersion r)
             /\ run process_cwd host keys = (res, ConsoleLog Banner :: body ++ new)
             /\ Scaffolded (projectDir process_cwd (projectName r)) r res new).
Proof.
  destruct (prompts_shape host keys [ConsoleLog Banner])
    as (pres & body & stage & Hp & Hbody & Hq & Hstage & Hreg & Hres).
  exists body, stage. do 4 (split; [assumption|]).
  assert (run process_cwd host keys
          = match pres with
            | Ret r => scaffold process_cwd host r (ConsoleLog Banner :: body)
            | Exit code => (Exit code, ConsoleLog Banner :: body ++ [ConsoleLog Cancelled])
            | Throw => (Throw, ConsoleLog Banner :: body)
            | Blocked => (Blocked, ConsoleLog Banner :: body)
            end) as ->.
  { unfold run, main. rewrite bind_run. unfold console_log at 1, tell at 1.
    cbv beta iota. rewrite bind_run. cbn [app] in Hp |- *. rewrite Hp.
    destruct pres; rewrite ?app_nil_r; reflexivity. }
  destruct pres as [r| |code|]; [| contradiction | |].
  - right. right. destruct Hres as (-> & Hname & Hv).
    destruct (scaffold_run process_cwd host r (ConsoleLog Banner :: body))
      as (res & new & -> & HS).
    exists r, res, new. cbn [app]. now repeat split.
  - left. now subst code.
  - right. now left.
Qed.

(** X4. A run that ends with exit code 0 has done everything, in this
    order: the three questions answered (the name not empty, the version
    known to the registry), the project directory created, a package manager
    detected, every artifact written, the install command of that package
    manager run with success, and the three closing hints printed. *)
Theorem exit_code_zero_means_done
    (process_cwd : string) (host : Trace -> Call -> bool) (keys : list Action) :
  exitCode (fst (run process_cwd host keys)) = Some 0 ->
  exists r body pm probes,
    let dir := projectDir process_cwd (projectName r) in
    projectName r <> EmptyString
    /\ inRegistry host (typescriptVersion r)
    /\ forallb isDialogue body = true
    /\ questions body = questionnaire
    /\ Detected pm probes
    /\ snd (run process_cwd host keys)
       = ConsoleLog Banner :: body
           ++ Sys (MkdirSync dir true) true :: probes
           ++ map (wrote dir true) (ManifestBuilder r)
           ++ [ConsoleLog (Created (projectName r)); ConsoleLog (Installing pm);
               install pm dir true;
               ConsoleLog NextSteps; ConsoleLog (ChangeDir (projectName r));
               ConsoleLog (RunDev pm)]
    /\ written (snd (run process_cwd host keys)) = map (emit dir) (ManifestBuilder r).
Proof.
  destruct (run_stages process_cwd host keys)
    as (body & stage & Hbody & Hq & _ & _ & [E|[E|(r & res & new & -> & Hn & Hv & E & HS)]]);
    rewrite E; cbn [fst snd exitCode]; try discriminate.
  intros Hcode.
  destruct HS as [|pm probes done a todo HD HM|pm probes HD|pm probes HD];
    try discriminate Hcode.
  exists r, body, pm, probes. cbv zeta. do 6 (split; [assumption || reflexivity|]).
  destruct (Detected_probes _ _ HD) as [_ Hp].
  change (ConsoleLog Banner :: ?l) with ([ConsoleLog Banner] ++ l).
  rewrite !written_app, (proj2 (dialogue_is_quiet _ Hbody)),
    (written_scaffolded _ _ _ _ _ Hp).
  cbn. now rewrite app_nil_r.
Qed.

Lemma exit_code_zero_means_done_witness :
  exists r body pm probes,
    projectName r <> EmptyString
    /\ inRegistry allOk (typescriptVersion r)
    /\ forallb isDialogue body = true
    /\ questions body = questionnaire
    /\ Detected pm probes
    /\ snd (run "/home/dev" allOk [Submit "my-app"; Submit "5.2.2"; Submit "y"])
       = ConsoleLog Banner :: body
           ++ Sys (MkdirSync (projectDir "/home/dev" (projectName r)) true) true :: probes
           ++ map (wrote (projectDir "/home/dev" (projectName r)) true) (ManifestBuilder r)
           ++ [ConsoleLog (Created (projectName r)); ConsoleLog (Installing pm);
               install pm (projectDir "/home/dev" (projectName r)) true;
               ConsoleLog NextSteps; ConsoleLog (ChangeDir (projectName r));
               ConsoleLog (RunDev pm)]
    /\ written (snd (run "/home/dev" allOk [Submit "my-app"; Submit "5.2.2"; Submit "y"]))
       = map (emit (projectDir "/home/dev" (projectName r))) (ManifestBuilder r).
Proof.
  apply (exit_code_zero_means_done "/home/dev" allOk
           [Submit "my-app"; Submit "5.2.2"; Submit "y"]).
  vm_compute. reflexivity.
Defined.

(** X5. On any host, also one whose answers change over time,
    [detectPackageManager] returns one of the four names without throwing,
    after at most three probes; each probe before the last one failed, the
    last one succeeded unless npm is returned, in which case the three
    probes failed; the probes carry the host's answers and leave the disk as
    it was. *)
Theorem detectPackageManager_is_harmless
    (host : Trace -> Call -> bool) (t : Trace) (disk : FS) :
  exists pm probes,
    detectPackageManager host t = (Ret pm, t ++ probes)
    /\ In pm (candidates ++ [fallback])
    /\ length probes <= 3
    /\ forallb isProbe probes = true
    /\ hostAnswers host t probes
    /\ (pm = fallback -> probes = map (fun c => probe c false) candidates)
    /\ (pm <> fallback ->
        exists failed untried,
          candidates = failed ++ pm :: untried
          /\ probes = map (fun c => probe c false) failed ++ [probe pm true])
    /\ fsAfter disk (t ++ probes) = fsAfter disk t.
Proof.
  destruct (detect_run host t) as (pm & probes & E & HD).
  exists pm, probes. split; [exact E|].
  destruct (Detected_probes _ _ HD) as [Hpm Hp]. do 2 (split; [auto|]).
  { destruct HD; cbn; lia. }
  split; [exact Hp|]. split.
  { destruct (faithful_detect host t) as (new & E' & Hnew).
    rewrite E in E'. cbn [snd] in E'. apply app_inv_head in E'. now subst new. }
  split; [destruct HD; try discriminate; reflexivity|]. split.
  - intros Hne. destruct HD; try contradiction.
    + now exists [], ["yarn"; "bun"].
    + now exists ["pnpm"], ["bun"].
    + now exists ["pnpm"; "yarn"], [].
  - rewrite fsAfter_app. apply fsAfter_untouched.
    rewrite forallb_forall in Hp |- *. intros e He. specialize (Hp e He).
    destruct e as [[? [?|] []| |] ?| | |]; try discriminate Hp; reflexivity.
Qed.

(** X6. A run ends through [process.exit] only when the operator cancels a
    prompt, whichever of the three: the code is then 1, the cancellation
    message is the last event, everything before it is dialogue (questions,
    rejections, registry queries), and the disk is as it was. *)
Theorem exit_only_by_cancel
    (process_cwd : string) (host : Trace -> Call -> bool) (keys : list Action)
    (code : nat) (disk : FS) :
  fst (run process_cwd host keys) = Exit code ->
  code = 1
  /\ (exists body stage,
         snd (run process_cwd host keys)
         = ConsoleLog Banner :: body ++ [ConsoleLog Cancelled]
         /\ forallb isDialogue body = true
         /\ questions body = firstn stage questionnaire /\ 1 <= stage <= 3)
  /\ written (snd (run process_cwd host keys)) = []
  /\ fsAfter disk (snd (run process_cwd host keys)) = disk.
Proof.
  destruct (run_stages process_cwd host keys)
    as (body & stage & Hbody & Hq & Hstage & _
        & [E|[E|(r & res & new & _ & _ & _ & E & HS)]]);
    rewrite E; cbn [fst snd]; intros Hexit; try discriminate Hexit.
  - injection Hexit as <-. split; [reflexivity|].
    split; [now exists body, stage|].
    destruct (dialogue_is_quiet _ Hbody) as [Hquiet Hw].
    split.
    + change (ConsoleLog Banner :: ?l) with ([ConsoleLog Banner] ++ l).
      now rewrite !written_app, Hw.
    + apply fsAfter_untouched. cbn [forallb touchesFileSystem negb andb].
      rewrite forallb_app, Hquiet. reflexivity.
  - destruct HS; discriminate Hexit.
Qed.

Lemma exit_only_by_cancel_witness :
  1 = 1
  /\ (exists body stage,
         snd (run "/home/dev" allOk [Submit "my-app"; Submit "5.2.2"; Cancel])
         = ConsoleLog Banner :: body ++ [ConsoleLog Cancelled]
         /\ forallb isDialogue body = true
         /\ questions body = firstn stage questionnaire /\ 1 <= stage <= 3)
  /\ written (snd (run "/home/dev" allOk [Submit "my-app"; Submit "5.2.2"; Cancel])) = []
  /\ fsAfter homeDev (snd (run "/home/dev" allOk [Submit "my-app"; Submit "5.2.2"; Cancel]))
     = homeDev.
Proof.
  apply (exit_only_by_cancel "/home/dev" allOk
           [Submit "my-app"; Submit "5.2.2"; Cancel] 1 homeDev).
  reflexivity.
Defined.

(** X7. In every run the questions are asked in the order of the
    questionnaire, each one once, a later one only after the earlier ones;
    as long as fewer than three have been asked, no file-system call has
    been made. *)
Theorem questions_in_order
    (process_cwd : string) (host : Trace -> Call -> bool) (keys : list Action) :
  exists stage,
    1 <= stage <= 3
    /\ questions (snd (run process_cwd host keys)) = firstn stage questionnaire
    /\ (stage < 3 ->
        forallb (fun e => negb (touchesFileSystem e)) (snd (run process_cwd host keys))
        = true).
Proof.
  destruct (run_stages process_cwd host keys)
    as (body & stage & Hbody & Hq & Hstage & _
        & [E|[E|(r & res & new & -> & _ & _ & E & HS)]]);
    rewrite E; cbn [fst snd]; exists stage || exists 3;
    (split; [assumption || lia|]);
    destruct (dialogue_is_quiet _ Hbody) as [Hquiet _].
  - split.
    + rewrite questions_cons, questions_app, Hq. cbn. apply app_nil_r.
    + intros _. cbn [forallb touchesFileSystem negb andb].
      rewrite forallb_app, Hquiet. reflexivity.
  - split.
    + now rewrite questions_cons.
    + intros _. cbn [forallb touchesFileSystem negb andb]. exact Hquiet.
  - split; [|lia].
    rewrite questions_cons, questions_app, Hq, (Scaffolded_no_questions _ _ _ _ HS).
    cbn. reflexivity.
Qed.

(** X8. When the registry cannot be reached, no version is ever accepted:
    the run ends cancelled or waiting at one of the first two prompts, the
    third question is never asked, and the disk is as it was. *)
Theorem unreachable_registry_blocks
    (process_cwd : string) (host : Trace -> Call -> bool) (keys : list Action)
    (disk : FS) :
  (forall t version, host t (registryQuery version) = false) ->
  (fst (run process_cwd host keys) = Exit 1 \/ fst (run process_cwd host keys) = Blocked)
  /\ ~ In "useEslint" (questions (snd (run process_cwd host keys)))
  /\ written (snd (run process_cwd host keys)) = []
  /\ fsAfter disk (snd (run process_cwd host keys)) = disk.
Proof.
  intros Hdown.
  assert (forall version, ~ inRegistry host version) as Hnone.
  { intros version (t0 & Ht0). unfold registryQuery in Hdown.
    rewrite Hdown in Ht0. discriminate. }
  destruct (run_stages process_cwd host keys)
    as (body & stage & Hbody & Hq & Hstage & Hthree
        & [E|[E|(r & res & new & _ & _ & Hv & _)]]);
    [| |now apply Hnone in Hv];
    rewrite E; cbn [fst snd]; (split; [auto|]);
    destruct (dialogue_is_quiet _ Hbody) as [Hquiet Hw];
    assert (stage < 3) as Hlt
      by (destruct (Nat.eq_dec stage 3) as [H3|]; [|lia];
          destruct (Hthree H3) as (version & Hv); now apply Hnone in Hv).
  - split; [|split].
    + rewrite questions_cons, questions_app, Hq. cbn [asked questions omap list_omap].
      rewrite app_nil_r.
      destruct stage as [|[|[|]]]; cbn; try lia; intuition discriminate.
    + change (ConsoleLog Banner :: ?l) with ([ConsoleLog Banner] ++ l).
      now rewrite !written_app, Hw.
    + apply fsAfter_untouched. cbn [forallb touchesFileSystem negb andb].
      rewrite forallb_app, Hquiet. reflexivity.
  - split; [|split].
    + rewrite questions_cons, Hq. cbn [asked].
      destruct stage as [|[|[|]]]; cbn; try lia; intuition discriminate.
    + change (ConsoleLog Banner :: ?l) with ([ConsoleLog Banner] ++ l).
      now rewrite !written_app, Hw.
    + apply fsAfter_untouched. cbn [forallb touchesFileSystem negb andb]. exact Hquiet.
Qed.

Lemma unreachable_registry_blocks_witness :
  (fst (run "/home/dev" registryDown [Submit "my-app"; Submit "5.2.2"; Submit "y"]) = Exit 1
   \/ fst (run "/home/dev" registryDown [Submit "my-app"; Submit "5.2.2"; Submit "y"])
      = Blocked)
  /\ ~ In "useEslint"
         (questions (snd (run "/home/dev" registryDown
                            [Submit "my-app"; Submit "5.2.2"; Submit "y"])))
  /\ written (snd (run "/home/dev" registryDown
                     [Submit "my-app"; Submit "5.2.2"; Submit "y"])) = []
  /\ fsAfter homeDev (snd (run "/home/dev" registryDown
                             [Submit "my-app"; Submit "5.2.2"; Submit "y"])) = homeDev.
Proof.
  apply (unreachable_registry_blocks "/home/dev" registryDown
           [Submit "my-app"; Submit "5.2.2"; Submit "y"] homeDev).
  intros t version. reflexivity.
Defined.

(** ** The version prompt *)

Lemma validateTypescriptVersion_query host value t :
  validateTypescriptVersion host value t
  = (Ret (if host t (registryQuery value) then Valid
          else Invalid "Invalid TypeScript version"),
     t ++ [Sys (registryQuery value) (host t (registryQuery value))]).
Proof.
  unfold validateTypescriptVersion. rewrite bind_run, versionExists_run. reflexivity.
Qed.

Lemma versionPrompt_retries host (known : string -> bool) bads good rest t :
  (forall t' version, host t' (registryQuery version) = known version) ->
  Forall (fun typed => known (valueOf "5.2.2" typed) = false) bads ->
  known (valueOf "5.2.2" good) = true ->
  textPrompt "typescriptVersion" "5.2.2" (validateTypescriptVersion host)
    (map Submit bads ++ Submit good :: rest) t
  = (Ret (valueOf "5.2.2" good, rest),
     t ++ List.flat_map rejectedVersion bads
       ++ [Sys (registryQuery (valueOf "5.2.2" good)) true]).
Proof.
  intros Hhost Hbads Hgood. revert t.
  induction Hbads as [|bad bads Hbad _ IH]; intros t.
  - cbn [map app textPrompt List.flat_map]. rewrite bind_run.
    fold (valueOf "5.2.2" good).
    rewrite validateTypescriptVersion_query, Hhost, Hgood. reflexivity.
  - cbn [map app textPrompt List.flat_map]. rewrite bind_run.
    fold (valueOf "5.2.2" bad).
    rewrite validateTypescriptVersion_query, Hhost, Hbad.
    rewrite bind_run. unfold tell at 1. cbv beta iota.
    rewrite IH. unfold rejectedVersion at 2. now flatten.
Qed.

(** X9. At the version prompt every submission the registry does not know
    is rejected after one query and leaves the same prompt open; the first
    known one is accepted after one query, an empty submission standing for
    5.2.2; return alone at the last prompt answers yes.  The prompts then
    return the name as typed, that version and [true]. *)
Theorem version_prompt_retries
    (host : Trace -> Call -> bool) (known : string -> bool)
    (name : string) (bads : list string) (good : string) (more : list Action)
    (t : Trace) :
  name <> EmptyString ->
  (forall t' version, host t' (registryQuery version) = known version) ->
  Forall (fun typed => known (valueOf "5.2.2" typed) = false) bads ->
  known (valueOf "5.2.2" good) = true ->
  prompts host
    (Submit name :: map Submit bads ++ Submit good :: Submit EmptyString :: more) t
  = (Ret {| projectName := name;
            typescriptVersion := valueOf "5.2.2" good;
            useEslint := true |},
     t ++ Ask "projectName" :: Ask "typescriptVersion"
       :: List.flat_map rejectedVersion bads
       ++ [Sys (registryQuery (valueOf "5.2.2" good)) true; Ask "useEslint"]).
Proof.
  intros Hname Hhost Hbads Hgood. unfold prompts.
  rewrite bind_run. unfold tell at 1. cbv beta iota.
  rewrite bind_run. cbn [textPrompt].
  destruct name as [|c name]; [contradiction|]. cbn [Str.isEmpty].
  rewrite bind_run. unfold validateProjectName at 1, ret at 1.
  cbn [Str.isEmpty]. cbv beta iota. unfold ret at 1. cbv beta iota.
  rewrite bind_run. unfold tell at 1. cbv beta iota.
  rewrite bind_run. cbn [fst snd].
  rewrite (versionPrompt_retries host known bads good _ _ Hhost Hbads Hgood).
  rewrite bind_run. unfold tell at 1. cbv beta iota.
  rewrite bind_run. cbn [fst snd confirmPrompt Str.isEmpty]. unfold ret.
  now flatten.
Qed.

Lemma version_prompt_retries_witness :
  prompts onlyDefaultVersion
    (Submit "my-app" :: map Submit ["0.0.0-does-not-exist"]
       ++ Submit EmptyString :: Submit EmptyString :: []) []
  = (Ret {| projectName := "my-app"; typescriptVersion := "5.2.2"; useEslint := true |},
     [] ++ Ask "projectName" :: Ask "typescriptVersion"
       :: List.flat_map rejectedVersion ["0.0.0-does-not-exist"]
       ++ [Sys (registryQuery "5.2.2") true; Ask "useEslint"]).
Proof.
  apply (version_prompt_retries onlyDefaultVersion knowsOnlyDefault
           "my-app" ["0.0.0-does-not-exist"] EmptyString [] []).
  - discriminate.
  - intros t' version. reflexivity.
  - repeat constructor.
  - reflexivity.
Defined.

(** ** Where the files land *)

Lemma split_noSeparator s :
  Forall (fun seg => noSeparator seg = true) (Str.split Path.SEP s).
Proof.
  induction s as [|c r IH]; cbn [Str.split]; [now repeat constructor|].
  destruct (Ascii.eqb c Path.SEP) eqn:Ec; [now constructor|].
  destruct (Str.split Path.SEP r) as [|h tl]; [repeat constructor; cbn; now rewrite Ec|].
  inversion IH as [|? ? Hh Htl]; subst. constructor; [|exact Htl].
  cbn. now rewrite Ec.
Qed.

Lemma normalizeSegment_keeps_plain res seg :
  Forall (fun s => plain s = true) res -> noSeparator seg = true ->
  Forall (fun s => plain s = true) (Path.normalizeSegment false res seg).
Proof.
  intros Hres Hseg. unfold Path.normalizeSegment.
  destruct (Str.isEmpty seg) eqn:E1; [exact Hres|].
  destruct (String.eqb seg ".") eqn:E2; [exact Hres|]. cbn [orb].
  destruct (String.eqb seg "..") eqn:E3.
  - destruct res as [|top below]; [constructor|].
    destruct (String.eqb top ".."); [exact Hres | now inversion Hres].
  - constructor; [|exact Hres]. unfold plain. now rewrite E1, E2, E3, Hseg.
Qed.

Lemma normalizeString_plain path :
  exists segments,
    Forall (fun s => plain s = true) segments
    /\ Path.normalizeString path false = Str.join "/" segments.
Proof.
  unfold Path.normalizeString.
  exists (rev (fold_left (Path.normalizeSegment false) (Str.split Path.SEP path) [])).
  split; [|reflexivity]. apply Forall_rev.
  generalize (split_noSeparator path). generalize (Str.split Path.SEP path).
  assert (Forall (fun s => plain s = true) (@nil string)) as Hnil by constructor.
  revert Hnil. generalize (@nil string).
  intros res Hres segs. revert res Hres.
  induction segs as [|seg segs IH]; intros res Hres Hsegs; [exact Hres|].
  inversion Hsegs; subst. cbn [fold_left]. apply IH; [|assumption].
  now apply normalizeSegment_keeps_plain.
Qed.

Lemma project_directory_segments (process_cwd name : string) :
  Path.isAbsolute process_cwd = true ->
  exists segments,
    Forall (fun s => plain s = true) segments
    /\ projectDir process_cwd name = absPath segments.
Proof.
  intros Habs. unfold projectDir, Path.resolve.
  assert (exists path,
             fold_left Path.resolveArg (rev [process_cwd; name] ++ [process_cwd])
               (EmptyString, false) = (path, true)) as (path & ->).
  { cbn [rev app fold_left]. unfold Path.resolveArg at 3. cbn [orb].
    destruct process_cwd as [|c cwd]; [discriminate|].
    destruct (Str.isEmpty name) eqn:Ename.
    - unfold Path.resolveArg at 2. cbn [orb Str.isEmpty]. rewrite Habs.
      unfold Path.resolveArg. cbn [orb]. eauto.
    - destruct (Path.isAbsolute name) eqn:Erel.
      + unfold Path.resolveArg. cbn [orb]. eauto.
      + unfold Path.resolveArg at 2. cbn [orb Str.isEmpty]. rewrite Habs.
        unfold Path.resolveArg. cbn [orb]. eauto. }
  cbn [negb]. destruct (normalizeString_plain path) as (segments & Hsegs & ->).
  now exists segments.
Qed.

(** X10. When the working directory is absolute, whatever the operator
    types as a name, the project directory is an absolute path in normal
    form (no empty segment, no [.], no [..]), and the path of each artifact
    is that directory followed by the file name: every file is written
    directly inside the directory that was created. *)
Theorem project_directory_is_normalized (process_cwd name : string) :
  Path.isAbsolute process_cwd = true ->
  exists segments,
    Forall (fun s => plain s = true) segments
    /\ projectDir process_cwd name = absPath segments
    /\ forall config a,
         In a (ManifestBuilder config) ->
         Path.join [projectDir process_cwd name; relativePath a]
         = absPath (segments ++ [relativePath a]).
Proof.
  intros Habs.
  destruct (project_directory_segments process_cwd name Habs) as (segments & Hsegs & E).
  exists segments. split; [exact Hsegs|]. split; [exact E|].
  intros config a Ha. rewrite E. apply (PathFacts.join_child segments _ Hsegs).
  unfold ManifestBuilder in Ha. rewrite !in_app_iff in Ha. cbn [In] in Ha.
  destruct (useEslint config); cbn [In] in Ha; intuition (subst a; reflexivity).
Qed.

Lemma project_directory_is_normalized_witness :
  exists segments,
    Forall (fun s => plain s = true) segments
    /\ projectDir "/home/dev" "../x/./y//" = absPath segments
    /\ forall config a,
         In a (ManifestBuilder config) ->
         Path.join [projectDir "/home/dev" "../x/./y//"; relativePath a]
         = absPath (segments ++ [relativePath a]).
Proof.
  apply (project_directory_is_normalized "/home/dev" "../x/./y//"). reflexivity.
Defined.

Lemma artifact_names config :
  Forall (fun a => plain (relativePath a) = true) (ManifestBuilder config)
  /\ NoDup (map relativePath (ManifestBuilder config)).
Proof.
  unfold ManifestBuilder, lintArtifact.
  destruct (useEslint config); cbn [app map relativePath].
  - split; [repeat constructor|]. by_computation.
  - split; [repeat constructor|]. by_computation.
Qed.

Lemma emitted_paths_distinct dir (l : list Artifact) :
  Forall (fun a => plain (relativePath a) = true) l ->
  NoDup (map relativePath l) ->
  NoDup (map fst (map (emit dir) l)).
Proof.
  induction l as [|a l IH]; intros Hplain Hnodup; [constructor|].
  inversion Hplain as [|? ? Ha Hl]; subst. inversion Hnodup as [|? ? Hnotin Hnd]; subst.
  cbn [map emit fst]. constructor; [|now apply IH].
  intros Hin. apply Hnotin. apply list_elem_of_In. apply list_elem_of_In in Hin.
  rewrite map_map in Hin. cbn [emit fst] in Hin.
  apply in_map_iff in Hin as (b & Hpath & Hb). apply in_map_iff. exists b.
  split; [|exact Hb].
  rewrite Forall_forall in Hl. apply list_elem_of_In in Hb.
  exact (PathFacts.join_file_inj dir _ _ (Hl b Hb) Ha Hpath).
Qed.

Lemma prefix_paths_distinct dir r (done todo : list Artifact) :
  ManifestBuilder r = done ++ todo ->
  NoDup (map fst (map (emit dir) done)).
Proof.
  intros HM. destruct (artifact_names r) as [Hplain Hnodup].
  rewrite HM in Hplain, Hnodup. apply emitted_paths_distinct.
  - now apply Forall_app in Hplain as [? _].
  - rewrite map_app in Hnodup. now apply NoDup_app in Hnodup as [? _].
Qed.

(** X11. In every run the files written have pairwise distinct paths: no
    artifact overwrites another one, whatever the project name and the
    working directory. *)
Theorem artifact_paths_distinct
    (process_cwd : string) (host : Trace -> Call -> bool) (keys : list Action) :
  NoDup (map fst (written (snd (run process_cwd host keys)))).
Proof.
  destruct (run_written process_cwd host keys)
    as [->|(r & asked & done & todo & _ & _ & _ & HM & ->)]; [constructor|].
  exact (prefix_paths_distinct _ r done todo HM).
Qed.

(** ** The directories *)

Lemma dirs_fsStep fs e : dirs fs ⊆ dirs (fsStep fs e).
Proof.
  destruct e as [c ok|m|q|q msg];
    [destruct c as [command dir io|path recursive|path data]; destruct ok;
     try destruct recursive|..];
    cbn [fsStep dirs]; set_solver.
Qed.

Lemma dirs_fsAfter (t : Trace) disk : dirs disk ⊆ dirs (fsAfter disk t).
Proof.
  revert disk. induction t as [|e t IH]; intros disk; [reflexivity|].
  unfold fsAfter in *. cbn [fold_left].
  transitivity (dirs (fsStep disk e)); [apply dirs_fsStep | apply IH].
Qed.

Lemma mkdir_ancestors (t : Trace) disk path a :
  In (Sys (MkdirSync path true) true) t ->
  In a (Path.ancestorsAndSelf path) ->
  a ∈ dirs (fsAfter disk t).
Proof.
  revert disk. induction t as [|e t IH]; intros disk Hin Ha; [contradiction|].
  change (fsAfter disk (e :: t)) with (fsAfter (fsStep disk e) t).
  destruct Hin as [->|Hin]; [|now apply IH].
  apply (dirs_fsAfter t). cbn [fsStep dirs].
  apply elem_of_union_r, elem_of_list_to_set, list_elem_of_In, Ha.
Qed.

Lemma prefixes_in base pre post :
  pre <> [] ->
  In (base +:+ "/" +:+ Str.join "/" pre) (Path.prefixes base (pre ++ post)).
Proof.
  revert base. induction pre as [|s pre IH]; intros base Hne; [contradiction|].
  cbn [app Path.prefixes]. destruct pre as [|s' pre]; [now left|]. right.
  change (Str.join "/" (s :: s' :: pre)) with (s +:+ "/" +:+ Str.join "/" (s' :: pre)).
  replace (base +:+ "/" +:+ s +:+ "/" +:+ Str.join "/" (s' :: pre))
    with ((base +:+ "/" +:+ s) +:+ "/" +:+ Str.join "/" (s' :: pre))
    by (now rewrite !PathFacts.append_assoc).
  apply IH. discriminate.
Qed.

Lemma filter_plain segments :
  Forall (fun s => plain s = true) segments ->
  List.filter (fun s => negb (Str.isEmpty s)) segments = segments.
Proof.
  induction 1 as [|x l Hx _ IH]; [reflexivity|].
  cbn [List.filter]. unfold plain in Hx.
  apply andb_prop in Hx as [[[Hx _]%andb_prop _]%andb_prop _].
  rewrite Hx. now rewrite IH.
Qed.

Lemma ancestors_of_absPath segments pre post :
  Forall (fun s => plain s = true) segments -> segments = pre ++ post ->
  In (absPath pre) (Path.ancestorsAndSelf (absPath segments)).
Proof.
  intros Hplain ->. unfold Path.ancestorsAndSelf.
  destruct pre as [|s pre]; [now left|]. right.
  assert (List.filter (fun s => negb (Str.isEmpty s))
            (Str.split Path.SEP (absPath ((s :: pre) ++ post)))
          = (s :: pre) ++ post) as ->.
  { unfold absPath.
    change ("/" +:+ Str.join "/" ((s :: pre) ++ post))
      with (EmptyString +:+ String Path.SEP (Str.join "/" ((s :: pre) ++ post))).
    rewrite PathFacts.split_app, (PathFacts.split_join _ Hplain) by discriminate.
    cbn [Str.split app List.filter Str.isEmpty negb].
    exact (filter_plain _ Hplain). }
  apply (prefixes_in EmptyString (s :: pre) post). discriminate.
Qed.

(** X13. When the working directory is absolute and the directory of the
    project has been created, the project directory and each directory
    above it, up to the root, is on the disk afterwards, and every directory
    that was there before still is. *)
Theorem project_directory_exists
    (process_cwd : string) (host : Trace -> Call -> bool) (keys : list Action)
    (disk : FS) (path : string) :
  Path.isAbsolute process_cwd = true ->
  In (Sys (MkdirSync path true) true) (snd (run process_cwd host keys)) ->
  exists segments,
    path = absPath segments
    /\ (forall pre post,
           segments = pre ++ post ->
           absPath pre ∈ dirs (fsAfter disk (snd (run process_cwd host keys))))
    /\ dirs disk ⊆ dirs (fsAfter disk (snd (run process_cwd host keys))).
Proof.
  intros Habs Hin.
  assert (exists r, path = projectDir process_cwd (projectName r)) as (r & Hpath).
  { destruct (run_shape process_cwd host keys)
      as [(asked & E & Hasked & _)|(r & asked & new & Hasked & _ & _ & E & HS)];
      rewrite E in Hin.
    - exfalso. destruct Hin as [|Hin]; [discriminate|].
      rewrite forallb_forall in Hasked. apply Hasked in Hin. discriminate.
    - apply in_run_new in Hin as [|Hin]; [discriminate| |exact Hasked|reflexivity].
      exists r.
      destruct HS as [|pm probes done' a todo' HD _|pm probes HD|pm probes HD];
        try (pose proof (Detected_probes _ _ HD) as [Hpm Hp]);
        in_cases Hin Hp; now injection Hin. }
  destruct (project_directory_segments process_cwd (projectName r) Habs)
    as (segments & Hsegs & E).
  exists segments. split; [congruence|]. split; [|apply dirs_fsAfter].
  intros pre post Hsplit. apply (mkdir_ancestors _ _ path); [exact Hin|].
  rewrite Hpath, E. now apply (ancestors_of_absPath segments pre post).
Qed.

Lemma project_directory_exists_witness :
  exists segments,
    "/home/dev/a/b" = absPath segments
    /\ (forall pre post,
           segments = pre ++ post ->
           absPath pre
           ∈ dirs (fsAfter homeDev
                     (snd (run "/home/dev" allOk
                             [Submit "a/b"; Submit EmptyString; Submit EmptyString]))))
    /\ dirs homeDev
       ⊆ dirs (fsAfter homeDev
                 (snd (run "/home/dev" allOk
                         [Submit "a/b"; Submit EmptyString; Submit EmptyString]))).
Proof.
  apply (project_directory_exists "/home/dev" allOk
           [Submit "a/b"; Submit EmptyString; Submit EmptyString] homeDev "/home/dev/a/b").
  - reflexivity.
  - vm_compute. do 5 right. now left.
Defined.

(** ** The manifest keeps the answers apart *)

Lemma unquoteHead_quoteChar c rest :
  unquoteHead (quoteChar c +:+ rest) = Some (c, rest).
Proof.
  destruct c as [[|] [|] [|] [|] [|] [|] [|] [|]]; reflexivity.
Qed.

Lemma unquoteHead_closing rest : unquoteHead (Str.DQ +:+ rest) = None.
Proof. reflexivity. Qed.

(** A quoted string is delimited by its closing quote: what follows two
    equal texts that start with quoted strings determines both strings. *)
Lemma quoteChars_delimited a b rest rest' :
  quoteChars a +:+ Str.DQ +:+ rest = quoteChars b +:+ Str.DQ +:+ rest' ->
  a = b /\ rest = rest'.
Proof.
  revert b. induction a as [|c a IH]; intros [|c' b] H; cbn [quoteChars] in H;
    rewrite ?PathFacts.append_assoc, ?PathFacts.append_empty in H.
  - split; [reflexivity|]. now apply PathFacts.append_cancel in H.
  - apply (f_equal unquoteHead) in H.
    rewrite unquoteHead_closing, unquoteHead_quoteChar in H. discriminate.
  - apply (f_equal unquoteHead) in H.
    rewrite unquoteHead_closing, unquoteHead_quoteChar in H. discriminate.
  - apply (f_equal unquoteHead) in H. rewrite !unquoteHead_quoteChar in H.
    injection H as -> H. destruct (IH _ H) as [-> ->]. now split.
Qed.

Lemma append_assoc_left (x y z other : string) :
  (x +:+ y) +:+ z = other -> x +:+ y +:+ z = other.
Proof. now rewrite PathFacts.append_assoc. Qed.

Lemma append_assoc_right (x y z other : string) :
  other = (x +:+ y) +:+ z -> other = x +:+ y +:+ z.
Proof. now rewrite PathFacts.append_assoc. Qed.

(** Strips what two equal texts share at the front, one piece at a time;
    each pair of quoted strings met on the way gives an equation. *)
Ltac compare_texts H :=
  repeat first
    [ match type of H with
      | (_ +:+ _) +:+ _ = _ => apply append_assoc_left in H
      | _ = (_ +:+ _) +:+ _ => apply append_assoc_right in H
      end
    | apply PathFacts.append_cancel in H
    | let E := fresh "E" in apply quoteChars_delimited in H as [E H] ].

(** X14. The text of [package.json] determines the answers it was built
    from: two manifests are equal only when the project names, the versions
    and the feature flags are, whatever characters the operator typed. *)
Theorem manifest_keeps_answers_apart (n v : string) (e : bool) (n' v' : string) (e' : bool) :
  stringify (package_json n v e) = stringify (package_json n' v' e') ->
  n = n' /\ v = v' /\ e = e'.
Proof.
  intros H. unfold stringify, package_json in H.
  destruct e, e';
    cbn [serialize map Str.join scripts devDependencies dependencies spreadIf app] in H;
    unfold quote in H; compare_texts H;
    try match goal with
        | E : _ = _ |- _ => discriminate E
        end;
    now repeat split.
Qed.

Lemma manifest_keeps_answers_apart_witness :
  "my-app" = "my-app" /\ "5.2.2" = "5.2.2" /\ true = true.
Proof.
  apply (manifest_keeps_answers_apart "my-app" "5.2.2" true "my-app" "5.2.2" true).
  reflexivity.
Defined.

(** ** The exit code *)

(** X15. How a run can end.  It completes, with exit code 0, the last
    event being the last hint and the install command having succeeded; or
    a system call the host refuses throws, with exit code 1, that call (the
    making of the directory, the writing of a file, or the install command)
    being the last event; or the operator cancels a prompt, with exit code
    1; or a prompt is left open with only dialogue behind it, in which case
    the process has no exit code while the operator may still type, and ends
    with code 13 when the input stream has ended.  So once the prompts are
    answered the script never waits for the operator again, and then the
    exit code is 0 or 1. *)
Theorem exit_status_of_a_run
    (process_cwd : string) (host : Trace -> Call -> bool) (keys : list Action)
    (inputEnded : bool) :
  let res := fst (run process_cwd host keys) in
  let t := snd (run process_cwd host keys) in
  (res = Ret tt /\ exitStatus inputEnded res = Some 0
   /\ exists before pm dir, t = before ++ [ConsoleLog (RunDev pm)]
                            /\ In (install pm dir true) before)
  \/ (res = Throw /\ exitStatus inputEnded res = Some 1
      /\ exists before c, t = before ++ [Sys c false]
                          /\ host before c = false
                          /\ (touchesFileSystem (Sys c false) = true
                              \/ exists pm dir, Sys c false = install pm dir false))
  \/ (res = Exit 1 /\ exitStatus inputEnded res = Some 1
      /\ exists body, t = ConsoleLog Banner :: body ++ [ConsoleLog Cancelled]
                      /\ forallb isDialogue body = true)
  \/ (res = Blocked
      /\ exitStatus inputEnded res = (if inputEnded then Some 13 else None)
      /\ exists body stage,
           t = ConsoleLog Banner :: body
           /\ forallb isDialogue body = true
           /\ questions body = firstn stage questionnaire /\ 1 <= stage <= 3).
Proof.
  cbv zeta.
  pose proof (run_faithful process_cwd host keys) as Hans.
  destruct (run_stages process_cwd host keys)
    as (body & stage & Hbody & Hq & Hstage & _
        & [E|[E|(r & res & new & _ & _ & _ & E & HS)]]);
    rewrite E in Hans |- *; cbn [fst snd exitStatus exitCode] in *.
  - right. right. left. do 2 (split; [reflexivity|]). now exists body.
  - do 3 right. do 2 (split; [reflexivity|]). now exists body, stage.
  - set (dir := projectDir process_cwd (projectName r)) in *.
    destruct HS as [|pm probes done a todo HD HM|pm probes HD|pm probes HD].
    + right. left. do 2 (split; [reflexivity|]).
      exists (ConsoleLog Banner :: body), (MkdirSync dir true).
      split; [reflexivity|]. split; [|now left].
      exact (hostAnswers_at host [] (ConsoleLog Banner :: body) _ _ [] Hans).
    + right. left. do 2 (split; [reflexivity|]).
      exists (ConsoleLog Banner :: body ++ Sys (MkdirSync dir true) true
                :: probes ++ map (wrote dir true) done),
        (WriteFileSync (Path.join [dir; relativePath a]) (content a)).
      assert (ConsoleLog Banner :: body ++ Sys (MkdirSync dir true) true
                :: probes ++ map (wrote dir true) done ++ [wrote dir false a]
              = (ConsoleLog Banner :: body ++ Sys (MkdirSync dir true) true
                   :: probes ++ map (wrote dir true) done)
                  ++ [Sys (WriteFileSync (Path.join [dir; relativePath a]) (content a))
                        false]) as Eq.
      { cbn [app]. rewrite <- !app_assoc. cbn [app]. now rewrite <- !app_assoc. }
      rewrite Eq in Hans |- *. split; [reflexivity|]. split; [|now left].
      exact (hostAnswers_at host [] _ _ _ [] Hans).
    + right. left. do 2 (split; [reflexivity|]).
      exists (ConsoleLog Banner :: body ++ Sys (MkdirSync dir true) true
                :: probes ++ map (wrote dir true) (ManifestBuilder r)
                ++ [ConsoleLog (Created (projectName r)); ConsoleLog (Installing pm)]),
        (ExecSync (pm +:+ " install") (Some dir) Inherit).
      assert (ConsoleLog Banner :: body ++ Sys (MkdirSync dir true) true
                :: probes ++ map (wrote dir true) (ManifestBuilder r)
                ++ [ConsoleLog (Created (projectName r)); ConsoleLog (Installing pm);
                    install pm dir false]
              = (ConsoleLog Banner :: body ++ Sys (MkdirSync dir true) true
                   :: probes ++ map (wrote dir true) (ManifestBuilder r)
                   ++ [ConsoleLog (Created (projectName r)); ConsoleLog (Installing pm)])
                  ++ [Sys (ExecSync (pm +:+ " install") (Some dir) Inherit) false]) as Eq.
      { cbn [app]. rewrite <- !app_assoc. cbn [app]. now rewrite <- !app_assoc. }
      rewrite Eq in Hans |- *. split; [reflexivity|].
      split; [|right; now exists pm, dir].
      exact (hostAnswers_at host [] _ _ _ [] Hans).
    + left. do 2 (split; [reflexivity|]).
      exists (ConsoleLog Banner :: body ++ Sys (MkdirSync dir true) true
                :: probes ++ map (wrote dir true) (ManifestBuilder r)
                ++ [ConsoleLog (Created (projectName r)); ConsoleLog (Installing pm);
                    install pm dir true;
                    ConsoleLog NextSteps; ConsoleLog (ChangeDir (projectName r))]),
        pm, dir.
      split; [cbn [app]; rewrite <- !app_assoc; cbn [app]; now rewrite <- !app_assoc|].
      right. rewrite !in_app_iff. right. right. rewrite !in_app_iff. right. right.
      right. right. now left.
Qed.
